(** * quran-explainer: the request handler of [app.py] and its fetchers

    A shallow embedding of [src/app.py].  The Flask view [explain_ayah]
    validates a JSON body, calls the two fetchers [get_ayah_text] and
    [get_tafsir_data], formats a prompt with [generate_explanation_prompt]
    and submits it to the Groq chat-completion API.

    Layout:
    - [Py]      the Python values, exceptions and built-ins the code uses;
    - [Effects] the outside world (HTTP endpoints, completion API, stdout),
                and the monad in which the effectful functions run;
    - the functions of [app.py], in source order;
    - [Samples] a runtime and some worlds to run the code on;
    - the vocabulary of the specification, then its properties, each
      claim under its number. *)

From Stdlib Require Import ZArith String Ascii List Bool Lia DecimalString SpecFloat.
From stdpp Require Import gmap strings.
Import ListNotations.

Set Warnings "-register-all".
Local Open Scope string_scope.
Local Open Scope Z_scope.

(* ===================================================================== *)
(** ** Python values, exceptions and built-ins *)
(* ===================================================================== *)

Module Py.

(** What [json.loads] produces, which is also what [request.get_json()] and
    [response.json()] hand to the code.  A [str] is its sequence of code
    points, here restricted to code points below 256 (one [ascii] each).
    A [float] is an IEEE-754 double: [json.loads] accepts the literals
    [NaN] and [Infinity], and a literal such as [1e999] overflows to
    infinity.  A [dict] lists its items in insertion order; keys of a dict
    are distinct, and [lookup] takes the first binding. *)
Inductive json : Type :=
  | JNull
  | JBool (b : bool)
  | JInt (z : Z)
  | JFloat (f : spec_float)
  | JStr (s : string)
  | JList (l : list json)
  | JObj (items : list (string * json)).

(** The exception classes that can arise in [app.py].  The classes of
    [requests.exceptions] all derive from [RequestException];
    [requests.exceptions.JSONDecodeError] derives from [ValueError] too. *)
Variant request_error : Type :=
  | ConnectionError | Timeout | HTTPError | JSONDecodeError | OtherRequestError.

Variant exn_class : Type :=
  | ValueError | TypeError | OverflowError | AttributeError
  | IndexError | KeyError
  | RequestException (k : request_error)
  | OtherException (name : string).

(** An exception object: its class and [str(e)]. *)
Record exn : Type := Exn { exn_class_of : exn_class; exn_text : string }.

(** Outcome of evaluating a Python expression: a value, or a raised
    exception on its way to the nearest handler. *)
Inductive result (A : Type) : Type :=
  | Ret (a : A)
  | Raise (e : exn).
Arguments Ret {A} a.
Arguments Raise {A} e.

Definition rbind {A B} (r : result A) (k : A -> result B) : result B :=
  match r with
  | Ret a => k a
  | Raise e => Raise e
  end.

(** [isinstance(e, C)] for the classes named in [except] clauses. *)
Definition is_RequestException (e : exn) : bool :=
  match exn_class_of e with
  | RequestException _ => true
  | _ => false
  end.

Definition is_ValueError (e : exn) : bool :=
  match exn_class_of e with
  | ValueError | RequestException JSONDecodeError => true
  | _ => false
  end.

Definition is_TypeError (e : exn) : bool :=
  match exn_class_of e with
  | TypeError => true
  | _ => false
  end.

(** Every class above derives from [Exception]. *)
Definition is_Exception (e : exn) : bool := true.

(** Built-ins of the interpreter whose text algorithms are not part of the
    repository: the parse behind [int(str)] ([None] where it raises
    [ValueError]), and [repr] of a float and of a str. *)
Class Runtime : Type := {
  int_of_str : string -> option Z;
  float_repr : spec_float -> string;
  str_repr : string -> string
}.

Definition dquote : string := String (ascii_of_nat 34) EmptyString.
Definition newline : string := String (ascii_of_nat 10) EmptyString.

(** [str(n)] for an int. *)
Definition str_of_int (z : Z) : string := NilZero.string_of_int (Z.to_int z).

Definition type_name (v : json) : string :=
  match v with
  | JNull => "NoneType"
  | JBool _ => "bool"
  | JInt _ => "int"
  | JFloat _ => "float"
  | JStr _ => "str"
  | JList _ => "list"
  | JObj _ => "dict"
  end.

Fixpoint lookup (k : string) (items : list (string * json)) : option json :=
  match items with
  | [] => None
  | (k', v) :: rest => if String.eqb k k' then Some v else lookup k rest
  end.

(** Truth value of an object, as [not x], [if x] and [and] test it. *)
Definition truthy (v : json) : bool :=
  match v with
  | JNull => false
  | JBool b => b
  | JInt z => negb (z =? 0)
  | JFloat (S754_zero _) => false
  | JFloat _ => true
  | JStr s => negb (String.eqb s "")
  | JList l => match l with [] => false | _ => true end
  | JObj items => match items with [] => false | _ => true end
  end.

(** Magnitude [m * 2^e] of a finite double cut to its integer part. *)
Definition float_trunc (s : bool) (m : positive) (e : Z) : Z :=
  let mag := if 0 <=? e then Z.pos m * 2 ^ e else Z.pos m / 2 ^ (- e) in
  if s then - mag else mag.

(** [x == n] for a JSON value [x] and an int [n]. *)
Definition eq_int (v : json) (n : Z) : bool :=
  match v with
  | JInt z => z =? n
  | JBool b => (if b then 1 else 0) =? n
  | JFloat (S754_zero _) => 0 =? n
  | JFloat (S754_finite s m e) =>
      if 0 <=? e then float_trunc s m e =? n
      else (float_trunc s m e =? n) && (Z.pos m mod 2 ^ (- e) =? 0)
  | _ => false
  end.

(** [k in s] for two strs. *)
Definition str_contains (k s : string) : bool :=
  match String.index 0 k s with
  | Some _ => true
  | None => false
  end.

(** [k in data] for a str [k]. *)
Definition contains (data : json) (k : string) : result bool :=
  match data with
  | JObj items => Ret (match lookup k items with Some _ => true | None => false end)
  | JList l =>
      Ret (existsb (fun x => match x with JStr s => String.eqb s k | _ => false end) l)
  | JStr s => Ret (str_contains k s)
  | _ => Raise (Exn TypeError
                  ("argument of type '" +:+ type_name data +:+ "' is not iterable"))
  end.

Section WithRuntime.
Context {rt : Runtime}.

(** [repr(v)]. *)
Fixpoint py_repr (v : json) : string :=
  match v with
  | JNull => "None"
  | JBool b => if b then "True" else "False"
  | JInt z => str_of_int z
  | JFloat f => float_repr f
  | JStr s => str_repr s
  | JList l =>
      "[" +:+
      (fix elems (l : list json) : string :=
         match l with
         | [] => ""
         | x :: rest =>
             py_repr x +:+ match rest with [] => "" | _ => ", " +:+ elems rest end
         end) l +:+ "]"
  | JObj items =>
      "{" +:+
      (fix pairs (l : list (string * json)) : string :=
         match l with
         | [] => ""
         | (k, x) :: rest =>
             str_repr k +:+ ": " +:+ py_repr x +:+
             match rest with [] => "" | _ => ", " +:+ pairs rest end
         end) items +:+ "}"
  end.

(** [str(v)], which is what a replacement field [{v}] of an f-string
    inserts: the str itself, [repr] for the other JSON types. *)
Definition py_str (v : json) : string :=
  match v with
  | JStr s => s
  | _ => py_repr v
  end.

(** [data[k]] for a str [k]. *)
Definition getitem (data : json) (k : string) : result json :=
  match data with
  | JObj items =>
      match lookup k items with
      | Some v => Ret v
      | None => Raise (Exn KeyError (str_repr k))
      end
  | JList _ => Raise (Exn TypeError "list indices must be integers or slices, not str")
  | JStr _ => Raise (Exn TypeError "string indices must be integers, not 'str'")
  | _ => Raise (Exn TypeError ("'" +:+ type_name data +:+ "' object is not subscriptable"))
  end.

(** [int(v)]. *)
Definition py_int (v : json) : result Z :=
  match v with
  | JBool b => Ret (if b then 1 else 0)
  | JInt z => Ret z
  | JFloat (S754_zero _) => Ret 0
  | JFloat (S754_finite s m e) => Ret (float_trunc s m e)
  | JFloat S754_nan => Raise (Exn ValueError "cannot convert float NaN to integer")
  | JFloat (S754_infinity _) =>
      Raise (Exn OverflowError "cannot convert float infinity to integer")
  | JStr s =>
      match int_of_str s with
      | Some z => Ret z
      | None => Raise (Exn ValueError
                         ("invalid literal for int() with base 10: " +:+ str_repr s))
      end
  | _ => Raise (Exn TypeError
                  ("int() argument must be a string, a bytes-like object or a real number, not '"
                   +:+ type_name v +:+ "'"))
  end.

End WithRuntime.

Definition no_attribute (v : json) (attr : string) : exn :=
  Exn AttributeError
      ("'" +:+ type_name v +:+ "' object has no attribute '" +:+ attr +:+ "'").

(** [data.get(k, default)]: only a dict has the method. *)
Definition dict_get (data : json) (k : string) (default : json) : result json :=
  match data with
  | JObj items => Ret (match lookup k items with Some v => v | None => default end)
  | _ => Raise (no_attribute data "get")
  end.

(** [str.isspace] on a code point below 256. *)
Definition is_space (c : ascii) : bool :=
  let n := N_of_ascii c in
  ((9 <=? n) && (n <=? 13) || (28 <=? n) && (n <=? 32) || (n =? 133) || (n =? 160))%N.

Fixpoint lstrip (s : string) : string :=
  match s with
  | EmptyString => EmptyString
  | String c s' => if is_space c then lstrip s' else s
  end.

Fixpoint rstrip (s : string) : string :=
  match s with
  | EmptyString => EmptyString
  | String c s' =>
      match rstrip s' with
      | EmptyString => if is_space c then EmptyString else String c EmptyString
      | r => String c r
      end
  end.

Definition strip (s : string) : string := rstrip (lstrip s).

(** [v.strip()]: only a str has the method. *)
Definition str_strip (v : json) : result string :=
  match v with
  | JStr s => Ret (strip s)
  | _ => Raise (no_attribute v "strip")
  end.

Fixpoint all_space (s : string) : bool :=
  match s with
  | EmptyString => true
  | String c s' => is_space c && all_space s'
  end.

End Py.

Import Py.

(* ===================================================================== *)
(** ** The outside world and the monad of effects *)
(* ===================================================================== *)

Module Effects.

(** A [requests.Response], as far as the code looks at it: the status
    line, the final URL, and what [response.json()] makes of the body
    (the decoder's complaint when the body is not JSON). *)
Record response : Type := Response {
  status_code : Z;
  reason : string;
  response_url : string;
  body : string + json
}.

(** [requests.get(url, timeout=...)] either returns a response or raises
    one of the [requests.exceptions] classes (connection refused, DNS
    failure, timeout, too many redirects, ...). *)
Variant http_outcome : Type :=
  | GetRaises (k : request_error) (text : string)
  | GetReturns (r : response).

(** The arguments of [groq_client.chat.completions.create]. *)
Record completion_request : Type := CompletionRequest {
  messages : list (string * string);   (* role, content *)
  model : string;
  temperature : spec_float;
  max_tokens : Z
}.

(** A [ChatCompletion]: the choices, each with its [message.content]
    (which the SDK types as an optional str). *)
Record chat_completion : Type := ChatCompletion {
  choices : list (option string)
}.

Variant completion_outcome : Type :=
  | CreateRaises (e : exn)
  | CreateReturns (c : chat_completion).

(** One behaviour of the environment during a request: the answer of every
    URL and of the completion API. *)
Record world : Type := World {
  http_get : string -> http_outcome;
  chat_completions_create : completion_request -> completion_outcome
}.

(** What a run does to the outside, in order. *)
Variant event : Type :=
  | EvGet (url : string) (timeout : Z)
  | EvCompletion (req : completion_request)
  | EvPrint (line : string).

Definition is_outbound (ev : event) : bool :=
  match ev with
  | EvGet _ _ | EvCompletion _ => true
  | EvPrint _ => false
  end.

Definition outbound_calls (tr : list event) : list event := filter is_outbound tr.

(** A computation reads the world, and yields an outcome together with
    the events it caused. *)
Definition M (A : Type) : Type := world -> result A * list event.

Definition ret {A} (a : A) : M A := fun _ => (Ret a, []).

Definition raise {A} (e : exn) : M A := fun _ => (Raise e, []).

Definition bind {A B} (m : M A) (k : A -> M B) : M B :=
  fun w =>
    match m w with
    | (Ret a, tr) => let (r, tr') := k a w in (r, (tr ++ tr')%list)
    | (Raise e, tr) => (Raise e, tr)
    end.

Definition lift {A} (r : result A) : M A := fun _ => (r, []).

(** [try: body / except C as e: handler]. *)
Definition try_except {A} (body : M A) (C : exn -> bool) (handler : exn -> M A) : M A :=
  fun w =>
    match body w with
    | (Ret a, tr) => (Ret a, tr)
    | (Raise e, tr) =>
        if C e then let (r, tr') := handler e w in (r, (tr ++ tr')%list)
        else (Raise e, tr)
    end.

Definition print (line : string) : M unit := fun _ => (Ret tt, [EvPrint line]).

Definition requests_get (url : string) (timeout : Z) : M response :=
  fun w =>
    match http_get w url with
    | GetRaises k text => (Raise (Exn (RequestException k) text), [EvGet url timeout])
    | GetReturns r => (Ret r, [EvGet url timeout])
    end.

(** [response.raise_for_status()]. *)
Definition raise_for_status (r : response) : M unit :=
  let describe kind :=
    str_of_int (status_code r) +:+ " " +:+ kind +:+ " Error: " +:+ reason r
    +:+ " for url: " +:+ response_url r in
  if (400 <=? status_code r) && (status_code r <? 500) then
    raise (Exn (RequestException HTTPError) (describe "Client"))
  else if (500 <=? status_code r) && (status_code r <? 600) then
    raise (Exn (RequestException HTTPError) (describe "Server"))
  else ret tt.

(** [response.json()]. *)
Definition response_json (r : response) : M json :=
  match body r with
  | inl text => raise (Exn (RequestException JSONDecodeError) text)
  | inr v => ret v
  end.

Definition create_completion (req : completion_request) : M chat_completion :=
  fun w =>
    match chat_completions_create w req with
    | CreateRaises e => (Raise e, [EvCompletion req])
    | CreateReturns c => (Ret c, [EvCompletion req])
    end.

Declare Scope eff_scope.
Delimit Scope eff_scope with eff.
Notation "x <- m ;; k" := (bind m (fun x => k))
  (at level 100, m at next level, right associativity) : eff_scope.
Notation "m ;;; k" := (bind m (fun _ => k))
  (at level 100, right associativity) : eff_scope.

End Effects.

Import Effects.
Local Open Scope eff_scope.

(* ===================================================================== *)
(** ** app.py *)
(* ===================================================================== *)

Section App.
Context {rt : Runtime}.

Definition TAFSIR_API_BASE_URL : string :=
  "https://cdn.jsdelivr.net/gh/spa5k/tafsir_api@main/tafsir".

(** The dict literal, in the order [.items()] walks it. *)
Definition TAFSIR_SOURCES : list (string * string) :=
  [ ("context", "en-kashf-al-asrar-tafsir");
    ("classical", "en-tafisr-ibn-kathir");
    ("modern", "en-tafsir-maarif-ul-quran") ].

Definition DATA_UNAVAILABLE_MESSAGE : string :=
  "Information from this source is currently unavailable or not found for this verse.".

Definition QURAN_API_BASE_URL : string := "http://api.alquran.cloud/v1/ayah".

Definition TRANSLATION_NOT_RETRIEVED : string :=
  "Could not retrieve the translation for this verse.".

Definition TRANSLATION_NETWORK_ERROR : string :=
  "Could not retrieve the translation due to a network error.".

Definition ayah_url (surah ayah : Z) : string :=
  QURAN_API_BASE_URL +:+ "/" +:+ str_of_int surah +:+ ":" +:+ str_of_int ayah
  +:+ "/en.asad".

Definition get_ayah_text (surah ayah : Z) : M json :=
  let url := ayah_url surah ayah in
  try_except
    (response <- requests_get url 10 ;;
     raise_for_status response ;;;
     data <- response_json response ;;
     code <- lift (dict_get data "code" JNull) ;;
     if eq_int code 200 then
       inner <- lift (dict_get data "data" (JObj [])) ;;
       text <- lift (dict_get inner "text" JNull) ;;
       if truthy text then
         d <- lift (getitem data "data") ;;
         lift (getitem d "text")
       else ret (JStr TRANSLATION_NOT_RETRIEVED)
     else ret (JStr TRANSLATION_NOT_RETRIEVED))
    is_RequestException
    (fun e =>
       print ("Error fetching Ayah text: " +:+ exn_text e) ;;;
       ret (JStr TRANSLATION_NETWORK_ERROR)).

Definition tafsir_url (source_slug : string) (surah ayah : Z) : string :=
  TAFSIR_API_BASE_URL +:+ "/" +:+ source_slug +:+ "/" +:+ str_of_int surah
  +:+ "/" +:+ str_of_int ayah +:+ ".json".

(** One iteration of the [for] loop of [get_tafsir_data]. *)
Definition fetch_source (surah ayah : Z) (source_name source_slug : string)
    (collected_data : gmap string string) : M (gmap string string) :=
  let url := tafsir_url source_slug surah ayah in
  try_except
    (response <- requests_get url 10 ;;
     raise_for_status response ;;;
     data <- response_json response ;;
     raw <- lift (dict_get data "text" (JStr "")) ;;
     text <- lift (str_strip raw) ;;
     ret (<[source_name :=
              if String.eqb text "" then DATA_UNAVAILABLE_MESSAGE else text]>
            collected_data))
    is_RequestException
    (fun e =>
       print ("Error fetching Tafsir from " +:+ source_slug +:+ ": " +:+ exn_text e) ;;;
       ret (<[source_name := DATA_UNAVAILABLE_MESSAGE]> collected_data)).

Fixpoint fetch_sources (surah ayah : Z) (sources : list (string * string))
    (collected_data : gmap string string) : M (gmap string string) :=
  match sources with
  | [] => ret collected_data
  | (source_name, source_slug) :: rest =>
      d <- fetch_source surah ayah source_name source_slug collected_data ;;
      fetch_sources surah ayah rest d
  end.

Definition get_tafsir_data (surah ayah : Z) : M (gmap string string) :=
  fetch_sources surah ayah TAFSIR_SOURCES empty.

(** [tafsir_data.get(key)] inside a replacement field: the text of the
    entry, or [None] printed as such when the key is absent. *)
Definition format_get (tafsir_data : gmap string string) (key : string) : string :=
  match tafsir_data !! key with
  | Some text => text
  | None => "None"
  end.

(** A triple-quoted literal, line by line: every line ends in a newline. *)
Fixpoint unlines (ls : list string) : string :=
  match ls with
  | [] => ""
  | l :: rest => l +:+ newline +:+ unlines rest
  end.

(** The instructions that open the prompt, up to the data block. *)
Definition prompt_instructions (surah ayah : Z) : list string :=
  [ "You are a helpful and knowledgeable assistant for Quranic studies. Your primary task is to provide a clear, multi-source explanation for Surah "
      +:+ str_of_int surah +:+ ", Ayah " +:+ str_of_int ayah +:+ ".";
    "";
    "**Your response MUST be structured in the following order:**";
    "";
    "**1. The Verse:**";
    "   - Start with the heading " +:+ dquote +:+ "### The Verse (Surah "
      +:+ str_of_int surah +:+ ": Ayah " +:+ str_of_int ayah +:+ ")" +:+ dquote +:+ ".";
    "   - Immediately after the heading, quote the English translation of the verse provided below.";
    "";
    "**2. The Explanation:**";
    "   - Based on the data provided, generate a detailed explanation. You must attribute every piece of information to its source using phrases like "
      +:+ dquote +:+ "According to Al-Wahidi..." +:+ dquote +:+ ", "
      +:+ dquote +:+ "Ibn Kathir explains that..." +:+ dquote +:+ ", etc.";
    "   - If the 'Shan-e-Nazool' (reason for revelation) from Al-Wahidi is available, present it first under the heading "
      +:+ dquote +:+ "### Shan-e-Nazool (Reason for Revelation)" +:+ dquote +:+ ".";
    "   - If it is unavailable, DO NOT mention the unavailability. Simply proceed to the next section.";
    "   - Present the commentary from Tafsir Ibn Kathir under the heading "
      +:+ dquote +:+ "### Classical Commentary: Tafsir Ibn Kathir" +:+ dquote +:+ ".";
    "   - Present the commentary from Maarif-ul-Quran under the heading "
      +:+ dquote +:+ "### Modern Commentary: Maarif-ul-Quran" +:+ dquote +:+ ".";
    "";
    "**3. Summary:**";
    "   - Conclude with a brief summary under the heading "
      +:+ dquote +:+ "### Summary" +:+ dquote +:+ ".";
    "";
    "---";
    "**DATA FOR YOUR TASK:**";
    "" ].

Definition generate_explanation_prompt (surah ayah : Z) (ayah_text : string)
    (tafsir_data : gmap string string) : string :=
  unlines
    (prompt_instructions surah ayah ++
     [ "**[Verse Translation]:**";
       ayah_text;
       "";
       "**[Al-Wahidi's Asbab Al-Nuzul]:**";
       format_get tafsir_data "context";
       "";
       "**[Tafsir Ibn Kathir]:**";
       format_get tafsir_data "classical";
       "";
       "**[Maarif-ul-Quran]:**";
       format_get tafsir_data "modern";
       "---";
       "";
       "Begin your response now." ])%list.

(** The handle that [Groq(api_key=...)] returns at import time; the
    module keeps [None] instead when the constructor raised. *)
Variant groq : Type := Groq.

(** What the view returns to Flask: [jsonify(payload), status]. *)
Record reply : Type := Reply { payload : json; status : Z }.

Definition jsonify (items : list (string * json)) : json := JObj items.

(** [not data or 'surah' not in data or 'ayah' not in data]. *)
Definition missing_fields (data : json) : result bool :=
  if negb (truthy data) then Ret true
  else
    rbind (contains data "surah") (fun has_surah =>
    if negb has_surah then Ret true
    else
      rbind (contains data "ayah") (fun has_ayah =>
      Ret (negb has_ayah))).

(** [surah = int(data['surah'])] then [ayah = int(data['ayah'])]. *)
Definition convert (data : json) : result (Z * Z) :=
  rbind (getitem data "surah") (fun s =>
  rbind (py_int s) (fun surah =>
  rbind (getitem data "ayah") (fun a =>
  rbind (py_int a) (fun ayah =>
  Ret (surah, ayah))))).

(** The double nearest to the literal [0.6]. *)
Definition temperature_0_6 : spec_float := S754_finite false 5404319552844595 (-53).

Definition completion_request_for (prompt : string) : completion_request :=
  {| messages := [("user", prompt)];
     model := "llama-3.3-70b-versatile";
     temperature := temperature_0_6;
     max_tokens := 2048 |}.

Definition NOT_INITIALIZED : string := "Groq client is not initialized. Check API key.".
Definition MISSING_NUMBER : string := "Missing Surah or Ayah number".
Definition MUST_BE_NUMBERS : string := "Surah and Ayah must be numbers".
Definition MODEL_FAILED : string := "Failed to get explanation from the language model: ".

(** The view bound to [POST /explain].  [data] is what
    [request.get_json()] returned.  An exception that leaves the view is
    an unhandled fault, which Flask answers on its own. *)
Definition explain_ayah (groq_client : option groq) (data : json) : M reply :=
  match groq_client with
  | None => ret (Reply (jsonify [("error", JStr NOT_INITIALIZED)]) 500)
  | Some _ =>
      missing <- lift (missing_fields data) ;;
      if missing then ret (Reply (jsonify [("error", JStr MISSING_NUMBER)]) 400)
      else
        parsed <- try_except
                    (p <- lift (convert data) ;; ret (inr p))
                    (fun e => is_ValueError e || is_TypeError e)
                    (fun _ => ret (inl (Reply (jsonify [("error", JStr MUST_BE_NUMBERS)]) 400))) ;;
        match parsed with
        | inl early => ret early
        | inr (surah, ayah) =>
            ayah_text <- get_ayah_text surah ayah ;;
            tafsir_data <- get_tafsir_data surah ayah ;;
            let prompt :=
              generate_explanation_prompt surah ayah (py_str ayah_text) tafsir_data in
            try_except
              (chat_completion <- create_completion (completion_request_for prompt) ;;
               explanation <-
                 lift (match choices chat_completion with
                       | first :: _ => Ret first
                       | [] => Raise (Exn IndexError "list index out of range")
                       end) ;;
               ret (Reply
                      (jsonify [("explanation",
                                 match explanation with
                                 | Some text => JStr text
                                 | None => JNull
                                 end)])
                      200))
              is_Exception
              (fun e =>
                 print ("Error calling Groq API: " +:+ exn_text e) ;;;
                 ret (Reply (jsonify [("error", JStr (MODEL_FAILED +:+ exn_text e))]) 500))
        end
  end.


(** The request, as [request.get_json()] finds it: its Content-Type is
    not a JSON type; or it is one and the body does not decode ([text] is
    then [str] of the [BadRequest] that Flask raises); or the body decodes
    to [data].  A POST without any body is of the first or second kind. *)
Variant request : Type :=
  | NotJson
  | Undecodable (text : string)
  | Json (data : json).

Definition UNSUPPORTED_MEDIA_TYPE : string :=
  "415 Unsupported Media Type: Did not attempt to load JSON data because the request Content-Type was not 'application/json'.".

(** [request.get_json()], with its defaults: it raises werkzeug's
    [UnsupportedMediaType] or [BadRequest] where it has no data to give. *)
Definition get_json (req : request) : M json :=
  match req with
  | NotJson => raise (Exn (OtherException "UnsupportedMediaType") UNSUPPORTED_MEDIA_TYPE)
  | Undecodable text => raise (Exn (OtherException "BadRequest") text)
  | Json data => ret data
  end.

(** The view as Flask calls it, from the request: the test of the client
    at line 114, then [data = request.get_json()] at line 117, outside any
    [try], then the rest of the view on [data], which is [explain_ayah]
    above with its client in hand. *)
Definition explain_ayah_view (groq_client : option groq) (req : request) : M reply :=
  match groq_client with
  | None => ret (Reply (jsonify [("error", JStr NOT_INITIALIZED)]) 500)
  | Some _ =>
      data <- get_json req ;;
      explain_ayah groq_client data
  end.

End App.

(* ===================================================================== *)
(** ** A runtime and some worlds to run the code on *)
(* ===================================================================== *)

Module Samples.

Definition digit_value (c : ascii) : option Z :=
  let n := Z.of_N (N_of_ascii c) in
  if (48 <=? n) && (n <=? 57) then Some (n - 48) else None.

Fixpoint digits_value (s : string) (acc : Z) : option Z :=
  match s with
  | EmptyString => Some acc
  | String c s' =>
      match digit_value c with
      | Some d => digits_value s' (10 * acc + d)
      | None => None
      end
  end.

(** Plain decimal literals: blanks around, a sign, at least one digit. *)
Definition plain_int_of_str (s : string) : option Z :=
  match strip s with
  | EmptyString => None
  | String "-" (String c rest) => option_map Z.opp (digits_value (String c rest) 0)
  | String "+" (String c rest) => digits_value (String c rest) 0
  | body => digits_value body 0
  end.

(** A runtime for the examples below.  It reads plain decimal literals,
    quotes a str in single quotes, and prints a double as its sign,
    mantissa and binary exponent. *)
#[export] Instance plain_runtime : Runtime := {|
  int_of_str := plain_int_of_str;
  str_repr := fun s => "'" +:+ s +:+ "'";
  float_repr := fun f =>
    match f with
    | S754_zero s => if s then "-0.0" else "0.0"
    | S754_infinity s => if s then "-inf" else "inf"
    | S754_nan => "nan"
    | S754_finite s m e =>
        (if s then "-" else "") +:+ str_of_int (Z.pos m) +:+ "p" +:+ str_of_int e
    end
|}.

(** The double nearest to the literal [2.9]. *)
Definition float_2_9 : spec_float := S754_finite false 6530219459687219 (-51).

Definition ok_response (url : string) (v : json) : http_outcome :=
  GetReturns (Response 200 "OK" url (inr v)).

(** Every endpoint answers as documented, the model answers with a text. *)
Definition healthy : world :=
  {| http_get := fun url =>
       if String.eqb url (ayah_url 2 255) then
         ok_response url
           (JObj [("code", JInt 200); ("status", JStr "OK");
                  ("data", JObj [("number", JInt 262);
                                 ("text", JStr "GOD - there is no deity save Him")])])
       else ok_response url (JObj [("ayah", JInt 255); ("text", JStr " A commentary. ")]);
     chat_completions_create := fun _ =>
       CreateReturns (ChatCompletion [Some "### The Verse"]) |}.

(** No endpoint can be reached and the completion API refuses the call. *)
Definition offline : world :=
  {| http_get := fun _ => GetRaises ConnectionError "Max retries exceeded";
     chat_completions_create := fun _ =>
       CreateRaises (Exn (OtherException "APIConnectionError") "Connection error.") |}.

(** Like [healthy], except that URL [bad] is answered by [o]. *)
Definition answering (bad : string) (o : http_outcome) : world :=
  {| http_get := fun url => if String.eqb url bad then o else http_get healthy url;
     chat_completions_create := chat_completions_create healthy |}.

(** Like [healthy], except that the completion API raises [e]. *)
Definition model_raising (e : exn) : world :=
  {| http_get := http_get healthy;
     chat_completions_create := fun _ => CreateRaises e |}.

(** The three commentary URLs and a well-formed body for verse 2:255. *)
Definition kashf_url : string := tafsir_url "en-kashf-al-asrar-tafsir" 2 255.
Definition ibn_kathir_url : string := tafsir_url "en-tafisr-ibn-kathir" 2 255.
Definition maarif_url : string := tafsir_url "en-tafsir-maarif-ul-quran" 2 255.

Definition verse_2_255 : json := JObj [("surah", JInt 2); ("ayah", JInt 255)].

Definition three_texts : gmap string string :=
  <["modern" := "M"]> (<["classical" := "K"]> (<["context" := "C"]> empty)).

(** Like [healthy], except that the completion API returns [c]. *)
Definition model_returning (c : chat_completion) : world :=
  {| http_get := http_get healthy;
     chat_completions_create := fun _ => CreateReturns c |}.

(** The translation endpoint's answer in [healthy], piece by piece. *)
Definition verse_data : list (string * json) :=
  [("number", JInt 262); ("text", JStr "GOD - there is no deity save Him")].

Definition verse_body : list (string * json) :=
  [("code", JInt 200); ("status", JStr "OK"); ("data", JObj verse_data)].

(** What the translation API sends for a reference it does not know, here
    under a 200 status. *)
Definition unknown_verse_body : list (string * json) :=
  [("code", JInt 404); ("status", JStr "NOT FOUND");
   ("data", JStr "Invalid ayah reference")].

(** A commentary answer in [healthy], and one without a text. *)
Definition commentary_body : list (string * json) :=
  [("ayah", JInt 255); ("text", JStr " A commentary. ")].

Definition textless_body : list (string * json) := [("ayah", JInt 255)].

(** What [get_tafsir_data] collects in [healthy]. *)
Definition healthy_commentary : gmap string string :=
  <["modern" := "A commentary."]>
    (<["classical" := "A commentary."]> (<["context" := "A commentary."]> empty)).

(** A run that raises: the translation endpoint answers a JSON list. *)
Definition list_answer : world :=
  answering (ayah_url 2 255) (ok_response (ayah_url 2 255) (JList [])).

End Samples.

(* ===================================================================== *)
(** ** Vocabulary of the specification *)
(* ===================================================================== *)

Section Vocabulary.
Context {rt : Runtime}.

(** [requests] reports the fetch as failed: [get] raised, the status is an
    error status, or the body does not decode. *)
Definition request_failed (o : http_outcome) : bool :=
  match o with
  | GetRaises _ _ => true
  | GetReturns r =>
      (400 <=? status_code r) && (status_code r <? 600)
      || match body r with inl _ => true | inr _ => false end
  end.

(** The text field of a decoded body is an empty or all-blank str. *)
Definition blank_text (items : list (string * json)) : Prop :=
  match lookup "text" items with
  | Some (JStr s) => all_space s = true
  | _ => False
  end.

Definition is_fetch_event (ev : event) : bool :=
  match ev with
  | EvGet _ _ | EvPrint _ => true
  | EvCompletion _ => false
  end.

(** A decoded body the view turns away: JSON null, an object without one
    of the two fields, or an object whose [surah] is rejected by [int()]
    with [ValueError] or [TypeError], or whose [surah] converts and whose
    [ayah] is so rejected ([surah] is converted first). *)
Inductive bad_request : json -> Prop :=
  | no_body : bad_request JNull
  | missing_field items :
      lookup "surah" items = None \/ lookup "ayah" items = None ->
      bad_request (JObj items)
  | surah_not_a_number items s a e :
      lookup "surah" items = Some s -> lookup "ayah" items = Some a ->
      py_int s = Raise e -> is_ValueError e || is_TypeError e = true ->
      bad_request (JObj items)
  | ayah_not_a_number items s a surah e :
      lookup "surah" items = Some s -> lookup "ayah" items = Some a ->
      py_int s = Ret surah ->
      py_int a = Raise e -> is_ValueError e || is_TypeError e = true ->
      bad_request (JObj items).

(** What the view answers once the completion call has come back. *)
Definition reply_of_completion (o : completion_outcome) : reply :=
  let failed text := Reply (jsonify [("error", JStr (MODEL_FAILED +:+ text))]) 500 in
  match o with
  | CreateRaises e => failed (exn_text e)
  | CreateReturns c =>
      match choices c with
      | Some text :: _ => Reply (jsonify [("explanation", JStr text)]) 200
      | None :: _ => Reply (jsonify [("explanation", JNull)]) 200
      | [] => failed "list index out of range"
      end
  end.

(** The view from the first fetch on, with the two numbers in hand. *)
Definition after_validation (surah ayah : Z) : M reply :=
  ayah_text <- get_ayah_text surah ayah ;;
  tafsir_data <- get_tafsir_data surah ayah ;;
  fun w =>
    let req := completion_request_for
                 (generate_explanation_prompt surah ayah (py_str ayah_text) tafsir_data) in
    let o := chat_completions_create w req in
    (Ret (reply_of_completion o),
     EvCompletion req ::
     match o with
     | CreateRaises e => [EvPrint ("Error calling Groq API: " +:+ exn_text e)]
     | CreateReturns c =>
         match choices c with
         | [] => [EvPrint "Error calling Groq API: list index out of range"]
         | _ => []
         end
     end).

(** A commentary endpoint answers as the code expects: no error status,
    a JSON object, and a text that is a str when it is there. *)
Definition well_formed_commentary (o : http_outcome) : Prop :=
  match o with
  | GetRaises _ _ => False
  | GetReturns r =>
      (400 <=? status_code r) && (status_code r <? 600) = false
      /\ match body r with
         | inr (JObj items) =>
             match lookup "text" items with
             | None | Some (JStr _) => True
             | Some _ => False
             end
         | _ => False
         end
  end.

(** The requests of the commentary loop for a list of sources, in order. *)
Definition source_requests (surah ayah : Z) (sources : list (string * string)) : list event :=
  map (fun source => EvGet (tafsir_url (snd source) surah ayah) 10) sources.

(** The mapping in which every source is unavailable. *)
Definition all_unavailable : gmap string string :=
  <["modern" := DATA_UNAVAILABLE_MESSAGE]>
    (<["classical" := DATA_UNAVAILABLE_MESSAGE]>
       (<["context" := DATA_UNAVAILABLE_MESSAGE]> empty)).

(** The heading of the data block under which each key is printed. *)
Definition commentary_headings : list (string * string) :=
  [ ("context", "**[Al-Wahidi's Asbab Al-Nuzul]:**");
    ("classical", "**[Tafsir Ibn Kathir]:**");
    ("modern", "**[Maarif-ul-Quran]:**") ].

Definition is_get (ev : event) : bool :=
  match ev with
  | EvGet _ _ => true
  | _ => false
  end.

(** The calls of a request that goes all the way. *)
Definition full_call_sequence (surah ayah : Z) (prompt : string) : list event :=
  (EvGet (ayah_url surah ayah) 10 :: source_requests surah ayah TAFSIR_SOURCES
   ++ [EvCompletion (completion_request_for prompt)])%list.

(** A request without a usable verse reference: it carries no decoded
    body, or its decoded body is one the view turns away. *)
Definition rejected_request (req : request) : Prop :=
  match req with
  | NotJson | Undecodable _ => True
  | Json data => bad_request data
  end.

(** [str(e)] of the [RequestException] behind a failed fetch: the text of
    what [get] raised, the line [raise_for_status] composes for an error
    status, or the complaint of the decoder. *)
Definition failure_cause (o : http_outcome) : string :=
  match o with
  | GetRaises _ text => text
  | GetReturns r =>
      if (400 <=? status_code r) && (status_code r <? 500) then
        str_of_int (status_code r) +:+ " Client Error: " +:+ reason r
        +:+ " for url: " +:+ response_url r
      else if (500 <=? status_code r) && (status_code r <? 600) then
        str_of_int (status_code r) +:+ " Server Error: " +:+ reason r
        +:+ " for url: " +:+ response_url r
      else
        match body r with
        | inl text => text
        | inr _ => ""
        end
  end.

End Vocabulary.

(* ===================================================================== *)
(** ** Properties *)
(* ===================================================================== *)

Import Samples.

(** Unfolding the monad down to pairs of outcome and trace. *)
Ltac run :=
  unfold try_except, bind, requests_get, create_completion, raise_for_status,
    response_json, lift, ret, raise, print in *.

(** *** Whitespace *)

Lemma lstrip_blank s : all_space s = true -> lstrip s = "".
Proof.
  induction s as [|c s IH]; simpl; [reflexivity|].
  intros [Hc Hs]%andb_prop. rewrite Hc. auto.
Qed.

Lemma strip_blank s : all_space s = true -> strip s = "".
Proof. intros H. unfold strip. rewrite (lstrip_blank s H). reflexivity. Qed.

Lemma rstrip_empty s : rstrip s = "" -> all_space s = true.
Proof.
  induction s as [|c s IH]; simpl; [reflexivity|].
  destruct (rstrip s) eqn:Hr; [|discriminate].
  destruct (is_space c); [|discriminate].
  intros _. auto.
Qed.

Lemma lstrip_space_suffix s : all_space (lstrip s) = true -> all_space s = true.
Proof.
  induction s as [|c s IH]; simpl; [reflexivity|].
  destruct (is_space c) eqn:Hc; simpl; [auto|].
  rewrite Hc. discriminate.
Qed.

(** [strip] leaves nothing exactly when the str is empty or all blanks. *)
Lemma strip_empty_iff s : strip s = "" <-> all_space s = true.
Proof.
  split; [|apply strip_blank].
  intros H. apply lstrip_space_suffix, rstrip_empty, H.
Qed.

Section Properties.
Context {rt : Runtime}.

(** *** The commentary fetcher, one source at a time *)

Lemma error_status_split z :
  (400 <=? z) && (z <? 600) = false ->
  (400 <=? z) && (z <? 500) = false /\ (500 <=? z) && (z <? 600) = false.
Proof. intros H. split; apply andb_false_iff; apply andb_false_iff in H; lia. Qed.

Lemma fetch_source_failed w surah ayah slug :
  request_failed (http_get w (tafsir_url slug surah ayah)) = true ->
  exists line, forall name d,
    fetch_source surah ayah name slug d w =
    (Ret (<[name := DATA_UNAVAILABLE_MESSAGE]> d),
     [EvGet (tafsir_url slug surah ayah) 10; EvPrint line]).
Proof.
  unfold request_failed, fetch_source. run.
  destruct (http_get w _) as [k text | r]; simpl; [eauto|].
  destruct ((400 <=? status_code r) && (status_code r <? 500)) eqn:H4; simpl; [eauto|].
  destruct ((500 <=? status_code r) && (status_code r <? 600)) eqn:H5; simpl; [eauto|].
  destruct (body r) as [text | v]; simpl; [eauto|].
  intros H. exfalso. apply orb_prop in H as [H|H]; [|discriminate].
  apply andb_prop in H as [Ha Hb].
  apply andb_false_iff in H4, H5. lia.
Qed.

Lemma fetch_source_blank w surah ayah name slug d r items :
  http_get w (tafsir_url slug surah ayah) = GetReturns r ->
  (400 <=? status_code r) && (status_code r <? 600) = false ->
  body r = inr (JObj items) ->
  blank_text items ->
  fetch_source surah ayah name slug d w =
  (Ret (<[name := DATA_UNAVAILABLE_MESSAGE]> d), [EvGet (tafsir_url slug surah ayah) 10]).
Proof.
  intros Hget [H4 H5]%error_status_split Hbody Hblank.
  unfold fetch_source. run. rewrite Hget. simpl.
  rewrite H4, H5. simpl. rewrite Hbody. simpl.
  unfold blank_text in Hblank.
  destruct (lookup "text" items) as [[| | | |s| |]|]; try contradiction.
  simpl. rewrite (strip_blank s Hblank). reflexivity.
Qed.

(** Whatever the endpoint does, an iteration either binds its own key to a
    non-empty text, causing fetch events only, or lets an
    [AttributeError] escape. *)
Lemma fetch_source_cases w surah ayah name slug d :
  (exists v tr,
     fetch_source surah ayah name slug d w = (Ret (<[name := v]> d), tr)
     /\ v <> "" /\ forallb is_fetch_event tr = true
     /\ forall d', fetch_source surah ayah name slug d' w = (Ret (<[name := v]> d'), tr))
  \/ (exists e tr,
        fetch_source surah ayah name slug d w = (Raise e, tr)
        /\ exn_class_of e = AttributeError /\ forallb is_fetch_event tr = true).
Proof.
  assert (Hmsg : DATA_UNAVAILABLE_MESSAGE <> "") by discriminate.
  unfold fetch_source. run.
  destruct (http_get w _) as [k text | r]; simpl.
  { left. eexists _, _. split; [reflexivity|]. split; [exact Hmsg|]. split; reflexivity. }
  destruct ((400 <=? status_code r) && (status_code r <? 500)); simpl.
  { left. eexists _, _. split; [reflexivity|]. split; [exact Hmsg|]. split; reflexivity. }
  destruct ((500 <=? status_code r) && (status_code r <? 600)); simpl.
  { left. eexists _, _. split; [reflexivity|]. split; [exact Hmsg|]. split; reflexivity. }
  destruct (body r) as [text | v]; simpl.
  { left. eexists _, _. split; [reflexivity|]. split; [exact Hmsg|]. split; reflexivity. }
  destruct v as [| b | z | f | s | l | items]; simpl;
    try (right; eexists _, _; split; [reflexivity|]; split; reflexivity).
  destruct (lookup "text" items) as [[| b | z | f | s | l | items']|]; simpl;
    try (right; eexists _, _; split; [reflexivity|]; split; reflexivity).
  - left. eexists _, _. split; [reflexivity|]. split; [|split; reflexivity].
    destruct (String.eqb (strip s) "") eqn:He; [exact Hmsg|].
    apply String.eqb_neq in He. exact He.
  - left. eexists _, _. split; [reflexivity|]. split; [exact Hmsg|]. split; reflexivity.
Qed.

(** *** The loop over the sources *)

Lemma fetch_sources_cons w surah ayah name slug rest d v tr0 :
  fetch_source surah ayah name slug d w = (Ret (<[name := v]> d), tr0) ->
  fetch_sources surah ayah ((name, slug) :: rest) d w =
  (let (r, tr) := fetch_sources surah ayah rest (<[name := v]> d) w in
   (r, (tr0 ++ tr)%list)).
Proof. intros H. simpl. unfold bind. rewrite H. reflexivity. Qed.

(** The loop writes the keys of its sources, and no other key. *)
Lemma fetch_sources_other_keys w surah ayah sources :
  forall d m tr key,
    fetch_sources surah ayah sources d w = (Ret m, tr) ->
    ~ In key (map fst sources) ->
    m !! key = d !! key.
Proof.
  induction sources as [|[name slug] rest IH]; intros d m tr key Hrun Hkey.
  - simpl in Hrun. unfold ret in Hrun. congruence.
  - simpl in Hkey.
    destruct (fetch_source_cases w surah ayah name slug d)
      as [(v & tr0 & Hstep & _) | (e & tr0 & Hstep & _)].
    + rewrite (fetch_sources_cons _ _ _ _ _ rest _ _ _ Hstep) in Hrun.
      destruct (fetch_sources surah ayah rest _ w) as [r tr1] eqn:Hrest.
      injection Hrun as -> _.
      rewrite (IH _ _ _ key Hrest) by tauto.
      apply lookup_insert_ne. tauto.
    + simpl in Hrun. unfold bind in Hrun. rewrite Hstep in Hrun. discriminate.
Qed.

(** What an iteration stored under its key is what the caller finds
    there, provided no later source has the same key. *)
Lemma fetch_sources_records w surah ayah pre name slug post v :
  (forall d, exists tr0,
      fetch_source surah ayah name slug d w = (Ret (<[name := v]> d), tr0)) ->
  ~ In name (map fst post) ->
  forall d m tr,
    fetch_sources surah ayah (pre ++ (name, slug) :: post) d w = (Ret m, tr) ->
    m !! name = Some v.
Proof.
  intros Hstep Hpost.
  induction pre as [|[name' slug'] pre IH]; intros d m tr Hrun.
  - simpl app in Hrun. destruct (Hstep d) as [tr0 H0].
    rewrite (fetch_sources_cons _ _ _ _ _ post _ _ _ H0) in Hrun.
    destruct (fetch_sources surah ayah post _ w) as [r tr1] eqn:Hrest.
    injection Hrun as -> _.
    rewrite (fetch_sources_other_keys _ _ _ _ _ _ _ name Hrest Hpost).
    apply lookup_insert_eq.
  - simpl in Hrun. unfold bind in Hrun.
    destruct (fetch_source surah ayah name' slug' d w) as [[d'|e] tr0]; [|discriminate].
    destruct (fetch_sources surah ayah _ d' w) as [r tr1] eqn:Hrest.
    injection Hrun as -> _. eapply IH, Hrest.
Qed.

(** A mapping that comes back has the keys of the sources on top of the
    initial ones, and no empty text among the new entries. *)
Lemma fetch_sources_shape w surah ayah sources :
  forall d m tr,
    fetch_sources surah ayah sources d w = (Ret m, tr) ->
    (forall key, is_Some (m !! key) <-> is_Some (d !! key) \/ In key (map fst sources))
    /\ (forall key text, m !! key = Some text -> d !! key = Some text \/ text <> "").
Proof.
  induction sources as [|[name slug] rest IH]; intros d m tr Hrun.
  - simpl in Hrun. unfold ret in Hrun. injection Hrun as <- _.
    split; [intros key; simpl; tauto | auto].
  - destruct (fetch_source_cases w surah ayah name slug d)
      as [(v & tr0 & Hstep & Hv & _) | (e & tr0 & Hstep & _)].
    + rewrite (fetch_sources_cons _ _ _ _ _ rest _ _ _ Hstep) in Hrun.
      destruct (fetch_sources surah ayah rest _ w) as [r tr1] eqn:Hrest.
      injection Hrun as -> _.
      destruct (IH _ _ _ Hrest) as [Hdom Hval]. split.
      * intros key. rewrite Hdom. simpl.
        destruct (decide (name = key)) as [->|Hne].
        -- rewrite lookup_insert_eq. split; [auto|]. intros _. left. eauto.
        -- rewrite lookup_insert_ne by exact Hne. tauto.
      * intros key text Hm. destruct (Hval _ _ Hm) as [Hd|Hd]; [|auto].
        destruct (decide (name = key)) as [->|Hne].
        -- rewrite lookup_insert_eq in Hd. injection Hd as <-. auto.
        -- rewrite lookup_insert_ne in Hd by exact Hne. auto.
    + simpl in Hrun. unfold bind in Hrun. rewrite Hstep in Hrun. discriminate.
Qed.

(** The fetchers cause fetch events only: they never call the model. *)
Lemma fetch_sources_events w surah ayah sources :
  forall d r tr,
    fetch_sources surah ayah sources d w = (r, tr) -> forallb is_fetch_event tr = true.
Proof.
  induction sources as [|[name slug] rest IH]; intros d r tr Hrun.
  - simpl in Hrun. unfold ret in Hrun. injection Hrun as _ <-. reflexivity.
  - destruct (fetch_source_cases w surah ayah name slug d)
      as [(v & tr0 & Hstep & _ & Hev & _) | (e & tr0 & Hstep & _ & Hev)].
    + rewrite (fetch_sources_cons _ _ _ _ _ rest _ _ _ Hstep) in Hrun.
      destruct (fetch_sources surah ayah rest _ w) as [r1 tr1] eqn:Hrest.
      injection Hrun as _ <-. rewrite forallb_app, Hev. simpl. eapply IH, Hrest.
    + simpl in Hrun. unfold bind in Hrun. rewrite Hstep in Hrun.
      injection Hrun as _ <-. exact Hev.
Qed.

Lemma sources_split pre name slug post :
  TAFSIR_SOURCES = (pre ++ (name, slug) :: post)%list -> ~ In name (map fst post).
Proof.
  unfold TAFSIR_SOURCES.
  destruct pre as [|p1 [|p2 [|p3 [|p4 pre]]]]; simpl; intros H;
    injection H as <-; subst; simpl; try discriminate; intuition discriminate.
Qed.

(** A failure that [requests] reports (the request raises, the status is
    an error status, or the body does not decode) is absorbed: the
    iteration raises nothing, stores [DATA_UNAVAILABLE_MESSAGE] under the
    key of the source, and the loop goes on with the sources that remain. *)
Lemma request_failure_is_absorbed w surah ayah pre name slug post :
  TAFSIR_SOURCES = (pre ++ (name, slug) :: post)%list ->
  request_failed (http_get w (tafsir_url slug surah ayah)) = true ->
  exists line,
    (forall d,
        fetch_sources surah ayah ((name, slug) :: post) d w =
        (let (r, tr) :=
           fetch_sources surah ayah post (<[name := DATA_UNAVAILABLE_MESSAGE]> d) w in
         (r, EvGet (tafsir_url slug surah ayah) 10 :: EvPrint line :: tr)))
    /\ (forall m tr,
           get_tafsir_data surah ayah w = (Ret m, tr) ->
           m !! name = Some DATA_UNAVAILABLE_MESSAGE).
Proof.
  intros Hsplit Hfail.
  destruct (fetch_source_failed w surah ayah slug Hfail) as [line Hstep].
  exists line. split.
  - intros d. rewrite (fetch_sources_cons _ _ _ _ _ post _ _ _ (Hstep name d)).
    destruct (fetch_sources surah ayah post _ w). reflexivity.
  - intros m tr Hrun. unfold get_tafsir_data in Hrun. rewrite Hsplit in Hrun.
    eapply fetch_sources_records; [|eapply sources_split, Hsplit|exact Hrun].
    intros d. eexists. apply Hstep.
Qed.

(** C6: a source answered with a non-error status and a JSON object whose
    text field is an empty or all-blank str gets the fallback text: the
    iteration stores [DATA_UNAVAILABLE_MESSAGE], which is neither empty
    nor blank, and that is what the returned mapping holds for the key. *)
Theorem blank_text_is_unavailable w surah ayah pre name slug post r items :
  TAFSIR_SOURCES = (pre ++ (name, slug) :: post)%list ->
  http_get w (tafsir_url slug surah ayah) = GetReturns r ->
  (400 <=? status_code r) && (status_code r <? 600) = false ->
  body r = inr (JObj items) ->
  blank_text items ->
  (forall d,
      fetch_source surah ayah name slug d w =
      (Ret (<[name := DATA_UNAVAILABLE_MESSAGE]> d),
       [EvGet (tafsir_url slug surah ayah) 10]))
  /\ (forall m tr,
         get_tafsir_data surah ayah w = (Ret m, tr) ->
         m !! name = Some DATA_UNAVAILABLE_MESSAGE)
  /\ all_space DATA_UNAVAILABLE_MESSAGE = false.
Proof.
  intros Hsplit Hget Hstatus Hbody Hblank.
  assert (Hstep : forall d,
             fetch_source surah ayah name slug d w =
             (Ret (<[name := DATA_UNAVAILABLE_MESSAGE]> d),
              [EvGet (tafsir_url slug surah ayah) 10])).
  { intros d. eapply fetch_source_blank; eassumption. }
  split; [exact Hstep|]. split; [|reflexivity].
  intros m tr Hrun. unfold get_tafsir_data in Hrun. rewrite Hsplit in Hrun.
  eapply fetch_sources_records; [|eapply sources_split, Hsplit|exact Hrun].
  intros d. eexists. apply Hstep.
Qed.

(** A mapping that [get_tafsir_data] returns has exactly the three keys,
    each with a non-empty text. *)
Lemma get_tafsir_data_shape w surah ayah m tr :
  get_tafsir_data surah ayah w = (Ret m, tr) ->
  (forall key, is_Some (m !! key) <-> In key ["context"; "classical"; "modern"])
  /\ (forall key text, m !! key = Some text -> text <> "").
Proof.
  intros Hrun. destruct (fetch_sources_shape _ _ _ _ _ _ _ Hrun) as [Hdom Hval].
  split.
  - intros key. rewrite Hdom, lookup_empty. simpl.
    split; [intros [[? ?]|H]; [discriminate|exact H] | auto].
  - intros key text Hm. destruct (Hval _ _ Hm) as [H|H]; [|exact H].
    rewrite lookup_empty in H. discriminate.
Qed.

(** *** The translation fetcher *)

(** The fetcher starts with the request for the verse, and causes fetch
    events only. *)
Lemma get_ayah_text_trace w surah ayah :
  exists r tr,
    get_ayah_text surah ayah w = (r, EvGet (ayah_url surah ayah) 10 :: tr)
    /\ forallb is_fetch_event tr = true.
Proof.
  unfold get_ayah_text. run.
  destruct (http_get w _) as [k text | r]; simpl; [eauto|].
  destruct ((400 <=? status_code r) && (status_code r <? 500)); simpl; [eauto|].
  destruct ((500 <=? status_code r) && (status_code r <? 600)); simpl; [eauto|].
  destruct (body r) as [text | data]; simpl; [eauto|].
  destruct (dict_get data "code" JNull) as [code|e] eqn:Hcode.
  2:{ destruct data; simpl in Hcode; try discriminate;
      injection Hcode as <-; simpl; eauto. }
  simpl. destruct (eq_int code 200); simpl; [|eauto].
  destruct (dict_get data "data" (JObj [])) as [inner|e] eqn:Hinner.
  2:{ destruct data; simpl in Hcode, Hinner; discriminate. }
  simpl. destruct (dict_get inner "text" JNull) as [text|e] eqn:Htext.
  2:{ destruct inner; simpl in Htext; try discriminate;
      injection Htext as <-; simpl; eauto. }
  simpl. destruct (truthy text); simpl; [|eauto].
  destruct (getitem data "data") as [d|e] eqn:Hd.
  2:{ destruct (is_RequestException e); simpl; eauto. }
  simpl. destruct (getitem d "text") as [t|e] eqn:Ht; simpl; [eauto|].
  destruct (is_RequestException e); simpl; eauto.
Qed.

(** When [requests] reports the fetch as failed, the fetcher logs the
    failure and answers with the network-error text. *)
Lemma get_ayah_text_failed w surah ayah :
  request_failed (http_get w (ayah_url surah ayah)) = true ->
  exists line,
    get_ayah_text surah ayah w =
    (Ret (JStr TRANSLATION_NETWORK_ERROR),
     [EvGet (ayah_url surah ayah) 10; EvPrint line]).
Proof.
  unfold request_failed, get_ayah_text. run.
  destruct (http_get w _) as [k text | r]; simpl; [eauto|].
  destruct ((400 <=? status_code r) && (status_code r <? 500)) eqn:H4; simpl; [eauto|].
  destruct ((500 <=? status_code r) && (status_code r <? 600)) eqn:H5; simpl; [eauto|].
  destruct (body r) as [text | v]; simpl; [eauto|].
  intros H. exfalso. apply orb_prop in H as [H|H]; [|discriminate].
  apply andb_prop in H as [Ha Hb].
  apply andb_false_iff in H4, H5. lia.
Qed.

(** A body that decodes to something other than an object makes
    [data.get] raise [AttributeError], which the handler does not catch. *)
Lemma get_ayah_text_not_a_dict w surah ayah r v :
  http_get w (ayah_url surah ayah) = GetReturns r ->
  (400 <=? status_code r) && (status_code r <? 600) = false ->
  body r = inr v ->
  match v with JObj _ => False | _ => True end ->
  get_ayah_text surah ayah w =
  (Raise (no_attribute v "get"), [EvGet (ayah_url surah ayah) 10]).
Proof.
  intros Hget [H4 H5]%error_status_split Hbody Hv.
  unfold get_ayah_text. run. rewrite Hget. simpl. rewrite H4, H5. simpl.
  rewrite Hbody. simpl. destruct v; try contradiction; reflexivity.
Qed.

(** *** The view *)

Lemma missing_fields_present items s a :
  lookup "surah" items = Some s -> lookup "ayah" items = Some a ->
  missing_fields (JObj items) = Ret false.
Proof.
  intros Hs Ha. unfold missing_fields.
  replace (truthy (JObj items)) with true by (destruct items; [discriminate|reflexivity]).
  unfold contains, rbind. cbn [negb]. rewrite Hs. cbn [negb]. rewrite Ha. reflexivity.
Qed.

Lemma convert_object items s a :
  lookup "surah" items = Some s -> lookup "ayah" items = Some a ->
  convert (JObj items) =
  rbind (py_int s) (fun surah => rbind (py_int a) (fun ayah => Ret (surah, ayah))).
Proof. intros Hs Ha. unfold convert. simpl. rewrite Hs. simpl. rewrite Ha. reflexivity. Qed.

Lemma explain_ayah_converted client data surah ayah w :
  missing_fields data = Ret false ->
  convert data = Ret (surah, ayah) ->
  explain_ayah (Some client) data w = after_validation surah ayah w.
Proof.
  intros Hm Hc. unfold explain_ayah, after_validation. run.
  rewrite Hm, Hc. simpl.
  destruct (get_ayah_text surah ayah w) as [[ayah_text|e] tr1]; [|reflexivity].
  destruct (get_tafsir_data surah ayah w) as [[tafsir_data|e] tr2]; [|reflexivity].
  destruct (chat_completions_create w _) as [e|[[|[text|] others]]]; reflexivity.
Qed.

(** A request passes validation when both fields are there and convert. *)
Lemma explain_ayah_validated client items s a surah ayah w :
  lookup "surah" items = Some s -> lookup "ayah" items = Some a ->
  py_int s = Ret surah -> py_int a = Ret ayah ->
  explain_ayah (Some client) (JObj items) w = after_validation surah ayah w.
Proof.
  intros Hs Ha His Hia. apply explain_ayah_converted.
  - eapply missing_fields_present; eassumption.
  - rewrite (convert_object _ _ _ Hs Ha), His, Hia. reflexivity.
Qed.

(** Either the view stops before any event, or it goes on to the fetchers
    with two integers. *)
Lemma explain_ayah_cases groq_client data w :
  (exists r, explain_ayah groq_client data w = (r, []))
  \/ (exists surah ayah, explain_ayah groq_client data w = after_validation surah ayah w).
Proof.
  destruct groq_client as [client|]; [|left; eexists; reflexivity].
  destruct (missing_fields data) as [[|]|e] eqn:Hm.
  - left. unfold explain_ayah. run. rewrite Hm. eexists. reflexivity.
  - destruct (convert data) as [[surah ayah]|e] eqn:Hc.
    + right. exists surah, ayah. apply explain_ayah_converted; assumption.
    + left. unfold explain_ayah. run. rewrite Hm, Hc. simpl.
      destruct (is_ValueError e || is_TypeError e); eexists; reflexivity.
  - left. unfold explain_ayah. run. rewrite Hm. eexists. reflexivity.
Qed.

Lemma fetch_event_not_completion tr req :
  forallb is_fetch_event tr = true -> ~ In (EvCompletion req) tr.
Proof.
  intros H Hin. rewrite forallb_forall in H. specialize (H _ Hin). discriminate.
Qed.

(** A completion call in the trace of the view is the one the view made
    after both fetchers returned, and its outcome decides the reply. *)
Lemma after_validation_completion surah ayah w r tr req :
  after_validation surah ayah w = (r, tr) ->
  In (EvCompletion req) tr ->
  r = Ret (reply_of_completion (chat_completions_create w req)).
Proof.
  unfold after_validation, bind.
  destruct (get_ayah_text_trace w surah ayah) as (r1 & tr1 & -> & Hev1).
  assert (Hno : forall tr0, forallb is_fetch_event tr0 = true ->
                            In (EvCompletion req) tr0 -> False).
  { intros tr0 H0 Hin. exact (fetch_event_not_completion _ _ H0 Hin). }
  destruct r1 as [ayah_text|e].
  { destruct (get_tafsir_data surah ayah w) as [[tafsir_data|e] tr2] eqn:Htaf;
      pose proof (fetch_sources_events _ _ _ _ _ _ _ Htaf) as Hev2.
    - intros [= <- <-] [H|H]; [discriminate|].
      apply in_app_or in H as [H|H]; [destruct (Hno _ Hev1 H)|].
      apply in_app_or in H as [H|H]; [destruct (Hno _ Hev2 H)|].
      destruct H as [[= <-]|H]; [reflexivity|].
      exfalso. destruct (chat_completions_create w _) as [e|[[|c cs]]];
        simpl in H; intuition discriminate.
    - intros [= <- <-] [H|H]; [discriminate|].
      apply in_app_or in H as [H|H]; [destruct (Hno _ Hev1 H)|destruct (Hno _ Hev2 H)]. }
  intros [= <- <-] [H|H]; [discriminate|]. destruct (Hno _ Hev1 H).
Qed.

(** Past validation the view answers 200 or 500, never 400. *)
Lemma after_validation_status surah ayah w rep tr :
  after_validation surah ayah w = (Ret rep, tr) -> status rep = 200 \/ status rep = 500.
Proof.
  unfold after_validation, bind.
  destruct (get_ayah_text surah ayah w) as [[ayah_text|e] tr1]; [|discriminate].
  destruct (get_tafsir_data surah ayah w) as [[tafsir_data|e] tr2]; [|discriminate].
  intros [= <- _]. unfold reply_of_completion.
  destruct (chat_completions_create w _) as [e|[[|[text|] cs]]]; simpl; auto.
Qed.

(** A guarded block that begins with a request begins its trace with it. *)
Lemma try_get_starts {A} url timeout (k : response -> M A) C handler w :
  exists r tr,
    try_except (x <- requests_get url timeout ;; k x) C handler w =
    (r, EvGet url timeout :: tr).
Proof.
  unfold try_except, bind, requests_get.
  destruct (http_get w url) as [kind text | resp]; simpl.
  - destruct (C _); [destruct (handler _ w)|]; eauto.
  - destruct (k resp w) as [[a|e] tr]; simpl; [eauto|].
    destruct (C e); [destruct (handler e w)|]; eauto.
Qed.

Lemma fetch_source_starts w surah ayah name slug d :
  exists r tr,
    fetch_source surah ayah name slug d w = (r, EvGet (tafsir_url slug surah ayah) 10 :: tr).
Proof. unfold fetch_source. apply try_get_starts. Qed.

Lemma fetch_sources_starts w surah ayah name slug rest d :
  exists r tr,
    fetch_sources surah ayah ((name, slug) :: rest) d w =
    (r, EvGet (tafsir_url slug surah ayah) 10 :: tr).
Proof.
  change (fetch_sources surah ayah ((name, slug) :: rest) d)
    with (bind (fetch_source surah ayah name slug d) (fetch_sources surah ayah rest)).
  unfold bind.
  destruct (fetch_source_starts w surah ayah name slug d) as (r & tr & ->).
  destruct r as [d'|e]; [|eauto].
  destruct (fetch_sources surah ayah rest d' w) as [r' tr']. eauto.
Qed.

Lemma get_tafsir_data_starts w surah ayah :
  exists r tr,
    get_tafsir_data surah ayah w =
    (r, EvGet (tafsir_url "en-kashf-al-asrar-tafsir" surah ayah) 10 :: tr).
Proof. apply fetch_sources_starts. Qed.

(** [int()] cuts a finite double towards zero. *)
Lemma float_trunc_quot s m e :
  float_trunc s m e =
  Z.quot ((if s then - Z.pos m else Z.pos m) * 2 ^ Z.max e 0) (2 ^ Z.max (- e) 0).
Proof.
  unfold float_trunc. destruct (0 <=? e) eqn:He.
  - apply Z.leb_le in He.
    rewrite (Z.max_l e 0), (Z.max_r (- e) 0) by lia.
    rewrite Z.pow_0_r, Z.quot_1_r. destruct s; lia.
  - apply Z.leb_gt in He.
    rewrite (Z.max_r e 0), (Z.max_l (- e) 0) by lia.
    rewrite Z.pow_0_r, Z.mul_1_r.
    assert (Hpow : 0 < 2 ^ (- e)) by (apply Z.pow_pos_nonneg; lia).
    destruct s.
    + rewrite Z.quot_opp_l by lia. rewrite Z.quot_div_nonneg by lia. reflexivity.
    + rewrite Z.quot_div_nonneg by lia. reflexivity.
Qed.

(** On a decoded body that it turns away, the rest of the view answers
    without an outbound call: 400 with a client, 500 without one. *)
Lemma bad_request_is_rejected w groq_client data :
  bad_request data ->
  exists rep,
    explain_ayah groq_client data w = (Ret rep, [])
    /\ status rep = match groq_client with Some _ => 400 | None => 500 end.
Proof.
  intros Hbad. destruct groq_client as [client|].
  2:{ eexists. split; reflexivity. }
  assert (Hearly :
            missing_fields data = Ret true
            \/ (missing_fields data = Ret false /\
                exists e, convert data = Raise e
                          /\ is_ValueError e || is_TypeError e = true) ->
            exists rep,
              explain_ayah (Some client) data w = (Ret rep, []) /\ status rep = 400).
  { intros [Hm | (Hm & e & Hc & He)]; unfold explain_ayah; run; rewrite Hm.
    - eexists. split; reflexivity.
    - rewrite Hc. simpl. rewrite He. eexists. split; reflexivity. }
  apply Hearly.
  destruct Hbad as [ | items Hmiss | items s a e Hs Ha His He
                   | items s a surah e Hs Ha His Hia He ].
  - left. reflexivity.
  - left. unfold missing_fields. destruct items as [|item items]; [reflexivity|].
    cbn [truthy negb]. unfold contains, rbind.
    destruct (lookup "surah" (item :: items)); [|reflexivity].
    destruct Hmiss as [Hmiss|Hmiss]; [discriminate|]. rewrite Hmiss. reflexivity.
  - right. split; [eapply missing_fields_present; eassumption|].
    exists e. rewrite (convert_object _ _ _ Hs Ha), His. auto.
  - right. split; [eapply missing_fields_present; eassumption|].
    exists e. rewrite (convert_object _ _ _ Hs Ha), His. simpl. rewrite Hia. auto.
Qed.

(** C1, amended: a request without a usable verse reference causes no
    outbound call, and no other event.  Without a client the view answers
    500 before it reads the request.  With a client, a body that decodes
    to null, to an object without [surah] or [ayah], or to an object
    whose [surah] (or, [surah] converting, whose [ayah]) is rejected by
    [int()] with [ValueError] or [TypeError] is answered 400; a request
    whose body is not JSON or does not decode makes [get_json] raise
    [UnsupportedMediaType] or [BadRequest] out of the view. *)
Theorem rejected_without_outbound_calls w groq_client req :
  rejected_request req ->
  exists r tr,
    explain_ayah_view groq_client req w = (r, tr)
    /\ tr = [] /\ outbound_calls tr = []
    /\ match groq_client, req with
       | None, _ => r = Ret (Reply (jsonify [("error", JStr NOT_INITIALIZED)]) 500)
       | Some _, Json _ => exists rep, r = Ret rep /\ status rep = 400
       | Some _, NotJson =>
           r = Raise (Exn (OtherException "UnsupportedMediaType") UNSUPPORTED_MEDIA_TYPE)
       | Some _, Undecodable text => r = Raise (Exn (OtherException "BadRequest") text)
       end.
Proof.
  intros Hrej. destruct groq_client as [client|].
  2:{ eexists _, _. split; [reflexivity|]. split; [reflexivity|]. split; reflexivity. }
  destruct req as [|text|data].
  - eexists _, _. split; [reflexivity|]. split; [reflexivity|]. split; reflexivity.
  - eexists _, _. split; [reflexivity|]. split; [reflexivity|]. split; reflexivity.
  - destruct (bad_request_is_rejected w (Some client) data Hrej) as (rep & Hrun & Hstatus).
    exists (Ret rep), []. split.
    { unfold explain_ayah_view, get_json. run. rewrite Hrun. reflexivity. }
    split; [reflexivity|]. split; [reflexivity|]. eauto.
Qed.

(** C5, amended: the view checks that the two fields convert, not that
    they are positive.  Whatever integers [int()] yields, zero and
    negative ones included, are handed to the fetchers: the run opens with
    the translation request for exactly these numbers, and once that
    fetcher has returned, the commentary requests are made for them too. *)
Theorem fetchers_receive_converted_integers w client items s a surah ayah :
  lookup "surah" items = Some s -> lookup "ayah" items = Some a ->
  py_int s = Ret surah -> py_int a = Ret ayah ->
  exists r tr,
    explain_ayah (Some client) (JObj items) w = (r, EvGet (ayah_url surah ayah) 10 :: tr)
    /\ forall text tr1,
         get_ayah_text surah ayah w = (Ret text, tr1) ->
         exists tr2,
           EvGet (ayah_url surah ayah) 10 :: tr =
           (tr1 ++ EvGet (tafsir_url "en-kashf-al-asrar-tafsir" surah ayah) 10 :: tr2)%list.
Proof.
  intros Hs Ha His Hia.
  rewrite (explain_ayah_validated client items s a surah ayah w Hs Ha His Hia).
  unfold after_validation, bind.
  destruct (get_ayah_text_trace w surah ayah) as (r1 & tr1 & Hrun1 & _).
  rewrite Hrun1. destruct r1 as [ayah_text|e].
  - destruct (get_tafsir_data_starts w surah ayah) as (r2 & tr2 & ->).
    destruct r2 as [tafsir_data|e].
    + eexists _, _. split; [reflexivity|].
      intros text tr1' [= <- <-]. simpl. eauto.
    + eexists _, _. split; [reflexivity|].
      intros text tr1' [= <- <-]. simpl. eauto.
  - eexists _, _. split; [reflexivity|]. intros text tr1' [=].
Qed.

(** C8: when the completion call the view makes raises, whatever the
    exception, the view returns (no exception leaves it) the 500 reply
    whose error message ends with the text of that exception. *)
Theorem model_failure_is_500 w groq_client data r tr req e :
  explain_ayah groq_client data w = (r, tr) ->
  In (EvCompletion req) tr ->
  chat_completions_create w req = CreateRaises e ->
  r = Ret (Reply (jsonify [("error", JStr (MODEL_FAILED +:+ exn_text e))]) 500).
Proof.
  intros Hrun Hin Hraise.
  destruct (explain_ayah_cases groq_client data w) as [[r0 H0] | (surah & ayah & H0)];
    rewrite H0 in Hrun.
  - injection Hrun as _ <-. destruct Hin.
  - rewrite (after_validation_completion _ _ _ _ _ _ Hrun Hin), Hraise. reflexivity.
Qed.

(** C9: when the completion call the view makes returns a completion
    whose first choice carries a text, the view answers 200 with that very
    text in the [explanation] field. *)
Theorem model_text_returned_verbatim w groq_client data r tr req c text others :
  explain_ayah groq_client data w = (r, tr) ->
  In (EvCompletion req) tr ->
  chat_completions_create w req = CreateReturns c ->
  choices c = Some text :: others ->
  r = Ret (Reply (jsonify [("explanation", JStr text)]) 200).
Proof.
  intros Hrun Hin Hret Hchoices.
  destruct (explain_ayah_cases groq_client data w) as [[r0 H0] | (surah & ayah & H0)];
    rewrite H0 in Hrun.
  - injection Hrun as _ <-. destruct Hin.
  - rewrite (after_validation_completion _ _ _ _ _ _ Hrun Hin), Hret.
    unfold reply_of_completion. rewrite Hchoices. reflexivity.
Qed.

(** C10: validation accepts what [int()] accepts.  Whatever the two
    fields are, if [int()] accepts them the request is not answered 400
    but goes on to the fetchers, which are asked for the numbers so
    obtained; and [int()] accepts a finite float, cut towards zero, a
    float zero of either sign as 0, and a boolean as 0 or 1. *)
Theorem int_accepts_floats_and_bools w client items s a surah ayah :
  lookup "surah" items = Some s -> lookup "ayah" items = Some a ->
  py_int s = Ret surah -> py_int a = Ret ayah ->
  (exists r tr,
      explain_ayah (Some client) (JObj items) w =
      (r, EvGet (ayah_url surah ayah) 10 :: tr)
      /\ forall rep, r = Ret rep -> status rep <> 400)
  /\ (forall sign m e,
         py_int (JFloat (S754_finite sign m e)) =
         Ret (Z.quot ((if sign then - Z.pos m else Z.pos m) * 2 ^ Z.max e 0)
                     (2 ^ Z.max (- e) 0)))
  /\ (forall sign, py_int (JFloat (S754_zero sign)) = Ret 0)
  /\ (forall b, py_int (JBool b) = Ret (if b then 1 else 0)).
Proof.
  intros Hs Ha His Hia. split.
  2:{ split; [|split; reflexivity].
      intros sign m e. cbn [py_int]. rewrite float_trunc_quot. reflexivity. }
  rewrite (explain_ayah_validated client items s a surah ayah w Hs Ha His Hia).
  destruct (after_validation surah ayah w) as [r tr] eqn:Hrun.
  assert (Hstatus : forall rep, r = Ret rep -> status rep <> 400).
  { intros rep ->. destruct (after_validation_status _ _ _ _ _ Hrun); lia. }
  revert Hrun. unfold after_validation, bind.
  destruct (get_ayah_text_trace w surah ayah) as (r1 & tr1 & -> & _).
  destruct r1 as [ayah_text|e1].
  - destruct (get_tafsir_data surah ayah w) as [[tafsir_data|e2] tr2];
      intros [= <- <-]; eexists _, _; (split; [reflexivity|exact Hstatus]).
  - intros [= <- <-]. eexists _, _. split; [reflexivity|exact Hstatus].
Qed.

(** *** The prompt *)

Lemma append_assoc (a b c : string) : (a +:+ b) +:+ c = a +:+ (b +:+ c).
Proof.
  induction a as [|ch a IH]; [reflexivity|].
  change (String ch ((a +:+ b) +:+ c) = String ch (a +:+ (b +:+ c))).
  rewrite IH. reflexivity.
Qed.

Lemma unlines_app xs ys : unlines (xs ++ ys) = unlines xs +:+ unlines ys.
Proof.
  induction xs as [|x xs IH]; [reflexivity|].
  cbn [app unlines]. rewrite IH, !append_assoc. reflexivity.
Qed.

(** A text found in [x] is found in [a +:+ x]. *)
Lemma infix_after a s x :
  (exists c d, x = c +:+ s +:+ d) -> exists c d, a +:+ x = c +:+ s +:+ d.
Proof.
  intros (c & d & ->). exists (a +:+ c), d. rewrite append_assoc. reflexivity.
Qed.

(** Four texts found in this order in [x] are found so in [a +:+ x]. *)
Lemma four_infixes_after a s1 s2 s3 s4 x :
  (exists c0 c1 c2 c3 c4, x = c0 +:+ s1 +:+ c1 +:+ s2 +:+ c2 +:+ s3 +:+ c3 +:+ s4 +:+ c4) ->
  exists c0 c1 c2 c3 c4,
    a +:+ x = c0 +:+ s1 +:+ c1 +:+ s2 +:+ c2 +:+ s3 +:+ c3 +:+ s4 +:+ c4.
Proof.
  intros (c0 & c1 & c2 & c3 & c4 & ->).
  exists (a +:+ c0), c1, c2, c3, c4. rewrite append_assoc. reflexivity.
Qed.

(** C7: [generate_explanation_prompt] is a function of its four arguments
    alone (it runs outside the monad of effects, and of the mapping it
    reads the three entries only), so equal inputs give the same string;
    that string contains the decimal chapter and verse numbers, and the
    translation, context, classical and modern texts in this order. *)
Theorem prompt_is_deterministic_and_ordered
    surah ayah ayah_text (tafsir_data tafsir_data' : gmap string string)
    context classical modern :
  tafsir_data !! "context" = Some context ->
  tafsir_data !! "classical" = Some classical ->
  tafsir_data !! "modern" = Some modern ->
  tafsir_data' !! "context" = Some context ->
  tafsir_data' !! "classical" = Some classical ->
  tafsir_data' !! "modern" = Some modern ->
  generate_explanation_prompt surah ayah ayah_text tafsir_data' =
  generate_explanation_prompt surah ayah ayah_text tafsir_data
  /\ (exists a b,
         generate_explanation_prompt surah ayah ayah_text tafsir_data =
         a +:+ str_of_int surah +:+ b)
  /\ (exists a b,
         generate_explanation_prompt surah ayah ayah_text tafsir_data =
         a +:+ str_of_int ayah +:+ b)
  /\ (exists a b c d e,
         generate_explanation_prompt surah ayah ayah_text tafsir_data =
         a +:+ ayah_text +:+ b +:+ context +:+ c +:+ classical +:+ d +:+ modern +:+ e).
Proof.
  intros Hx Hc Hm Hx' Hc' Hm'.
  unfold generate_explanation_prompt, format_get.
  rewrite Hx, Hc, Hm, Hx', Hc', Hm'.
  split; [reflexivity|]. split; [|split].
  - unfold prompt_instructions. cbn [app unlines]. rewrite !append_assoc.
    apply infix_after. exists "". eexists. reflexivity.
  - unfold prompt_instructions. cbn [app unlines]. rewrite !append_assoc.
    do 3 apply infix_after. exists "". eexists. reflexivity.
  - rewrite unlines_app. cbn [unlines].
    apply four_infixes_after.
    exists ("**[Verse Translation]:**" +:+ newline),
           (newline +:+ newline +:+ "**[Al-Wahidi's Asbab Al-Nuzul]:**" +:+ newline),
           (newline +:+ newline +:+ "**[Tafsir Ibn Kathir]:**" +:+ newline),
           (newline +:+ newline +:+ "**[Maarif-ul-Quran]:**" +:+ newline),
           (newline +:+ "---" +:+ newline +:+ newline
            +:+ "Begin your response now." +:+ newline).
    reflexivity.
Qed.

End Properties.

(* ===================================================================== *)
(** ** The properties at work on concrete requests *)
(* ===================================================================== *)

(** C1 as written fails: with the completion client uninitialised, an
    empty body is answered 500, not 400. *)
Lemma uninitialised_client_answers_500 :
  bad_request (JObj [])
  /\ exists rep,
       explain_ayah None (JObj []) healthy = (Ret rep, [])
       /\ status rep = 500 /\ status rep <> 400.
Proof.
  split; [apply missing_field; left; reflexivity|].
  eexists. split; [reflexivity|]. split; [reflexivity|discriminate].
Qed.

Lemma rejected_without_outbound_calls_witness :
  rejected_request (Json (JObj [("surah", JStr "x"); ("ayah", JInt 1)]))
  /\ exists r tr,
       explain_ayah_view (Some Groq) (Json (JObj [("surah", JStr "x"); ("ayah", JInt 1)]))
         healthy = (r, tr)
       /\ tr = [] /\ outbound_calls tr = []
       /\ exists rep, r = Ret rep /\ status rep = 400.
Proof.
  assert (Hbad : rejected_request (Json (JObj [("surah", JStr "x"); ("ayah", JInt 1)]))).
  { eapply surah_not_a_number; reflexivity. }
  split; [exact Hbad|].
  exact (rejected_without_outbound_calls healthy (Some Groq) _ Hbad).
Defined.

(** C2 fails on the code: a 200 answer whose body decodes to something
    other than the expected object makes [get_ayah_text] raise
    [AttributeError], which its handler for [RequestException] lets
    through. *)
Theorem translation_fetch_lets_attribute_error_escape :
  get_ayah_text 2 255 (answering (ayah_url 2 255) (ok_response (ayah_url 2 255) (JList [])))
  = (Raise (Exn AttributeError "'list' object has no attribute 'get'"),
     [EvGet "http://api.alquran.cloud/v1/ayah/2:255/en.asad" 10])
  /\ get_ayah_text 2 255
       (answering (ayah_url 2 255)
          (ok_response (ayah_url 2 255) (JObj [("code", JInt 200); ("data", JNull)])))
     = (Raise (Exn AttributeError "'NoneType' object has no attribute 'get'"),
        [EvGet "http://api.alquran.cloud/v1/ayah/2:255/en.asad" 10]).
Proof. split; vm_compute; reflexivity. Qed.

Lemma request_failure_is_absorbed_example :
  request_failed
    (http_get (answering ibn_kathir_url (GetRaises Timeout "Read timed out."))
       (tafsir_url "en-tafisr-ibn-kathir" 2 255)) = true
  /\ exists line,
       (forall d,
           fetch_sources 2 255
             [("classical", "en-tafisr-ibn-kathir"); ("modern", "en-tafsir-maarif-ul-quran")]
             d (answering ibn_kathir_url (GetRaises Timeout "Read timed out."))
           = (let (r, tr) :=
                fetch_sources 2 255 [("modern", "en-tafsir-maarif-ul-quran")]
                  (<["classical" := DATA_UNAVAILABLE_MESSAGE]> d)
                  (answering ibn_kathir_url (GetRaises Timeout "Read timed out.")) in
              (r, EvGet (tafsir_url "en-tafisr-ibn-kathir" 2 255) 10 :: EvPrint line :: tr)))
       /\ (forall m tr,
              get_tafsir_data 2 255
                (answering ibn_kathir_url (GetRaises Timeout "Read timed out."))
              = (Ret m, tr) ->
              m !! "classical" = Some DATA_UNAVAILABLE_MESSAGE).
Proof.
  split; [reflexivity|].
  apply (request_failure_is_absorbed
           (answering ibn_kathir_url (GetRaises Timeout "Read timed out.")) 2 255
           [("context", "en-kashf-al-asrar-tafsir")] "classical" "en-tafisr-ibn-kathir"
           [("modern", "en-tafsir-maarif-ul-quran")]);
    reflexivity.
Defined.

(** C3 fails on the code: when the second source is answered with a JSON
    object whose text is [null], [get_tafsir_data] raises
    [AttributeError] out of the loop after two requests: the failure of
    that source is not recorded under its key, and the third source is
    never asked. *)
Theorem unusable_answer_aborts_the_loop :
  get_tafsir_data 2 255
    (answering ibn_kathir_url (ok_response ibn_kathir_url (JObj [("text", JNull)])))
  = (Raise (Exn AttributeError "'NoneType' object has no attribute 'strip'"),
     [EvGet
        "https://cdn.jsdelivr.net/gh/spa5k/tafsir_api@main/tafsir/en-kashf-al-asrar-tafsir/2/255.json"
        10;
      EvGet
        "https://cdn.jsdelivr.net/gh/spa5k/tafsir_api@main/tafsir/en-tafisr-ibn-kathir/2/255.json"
        10])
  /\ forall timeout,
       ~ In (EvGet (tafsir_url "en-tafsir-maarif-ul-quran" 2 255) timeout)
            (snd (get_tafsir_data 2 255
                    (answering ibn_kathir_url
                       (ok_response ibn_kathir_url (JObj [("text", JNull)]))))).
Proof.
  split; [vm_compute; reflexivity|].
  intros timeout. vm_compute. intros [H|[H|[]]]; discriminate H.
Qed.

(** C4 fails on the code: a source answered with a JSON object whose text
    is [null] makes [get_tafsir_data] raise [AttributeError] out of the
    loop; no mapping comes back and the two other sources are not asked. *)
Theorem commentary_fetch_lets_attribute_error_escape :
  get_tafsir_data 2 255
    (answering kashf_url (ok_response kashf_url (JObj [("text", JNull)])))
  = (Raise (Exn AttributeError "'NoneType' object has no attribute 'strip'"),
     [EvGet
        "https://cdn.jsdelivr.net/gh/spa5k/tafsir_api@main/tafsir/en-kashf-al-asrar-tafsir/2/255.json"
        10]).
Proof. vm_compute. reflexivity. Qed.

(** C5 as written fails: a body with [surah] 0 and [ayah] -1 passes
    validation, and the translation endpoint is asked for verse 0:-1. *)
Lemma non_positive_numbers_are_fetched :
  py_int (JInt 0) = Ret 0 /\ py_int (JInt (-1)) = Ret (-1) /\ 0 <= 0 /\ -1 <= 0
  /\ In (EvGet "http://api.alquran.cloud/v1/ayah/0:-1/en.asad" 10)
        (snd (explain_ayah (Some Groq)
                (JObj [("surah", JInt 0); ("ayah", JInt (-1))]) healthy)).
Proof.
  split; [reflexivity|]. split; [reflexivity|]. split; [lia|]. split; [lia|].
  vm_compute. left. reflexivity.
Qed.

Lemma fetchers_receive_converted_integers_witness :
  exists r tr,
    explain_ayah (Some Groq) (JObj [("surah", JStr "-3"); ("ayah", JInt 0)]) offline
    = (r, EvGet (ayah_url (-3) 0) 10 :: tr)
    /\ forall text tr1,
         get_ayah_text (-3) 0 offline = (Ret text, tr1) ->
         exists tr2,
           EvGet (ayah_url (-3) 0) 10 :: tr =
           (tr1 ++ EvGet (tafsir_url "en-kashf-al-asrar-tafsir" (-3) 0) 10 :: tr2)%list.
Proof.
  apply (fetchers_receive_converted_integers offline Groq
           [("surah", JStr "-3"); ("ayah", JInt 0)] (JStr "-3") (JInt 0) (-3) 0);
    reflexivity.
Defined.

Lemma blank_text_is_unavailable_witness :
  blank_text [("ayah", JInt 255); ("text", JStr "   ")]
  /\ (forall d,
         fetch_source 2 255 "modern" "en-tafsir-maarif-ul-quran" d
           (answering maarif_url
              (ok_response maarif_url (JObj [("ayah", JInt 255); ("text", JStr "   ")])))
         = (Ret (<["modern" := DATA_UNAVAILABLE_MESSAGE]> d),
            [EvGet (tafsir_url "en-tafsir-maarif-ul-quran" 2 255) 10]))
  /\ (forall m tr,
         get_tafsir_data 2 255
           (answering maarif_url
              (ok_response maarif_url (JObj [("ayah", JInt 255); ("text", JStr "   ")])))
         = (Ret m, tr) ->
         m !! "modern" = Some DATA_UNAVAILABLE_MESSAGE)
  /\ all_space DATA_UNAVAILABLE_MESSAGE = false.
Proof.
  split; [reflexivity|].
  apply (blank_text_is_unavailable
           (answering maarif_url
              (ok_response maarif_url (JObj [("ayah", JInt 255); ("text", JStr "   ")])))
           2 255
           [("context", "en-kashf-al-asrar-tafsir"); ("classical", "en-tafisr-ibn-kathir")]
           "modern" "en-tafsir-maarif-ul-quran" []
           (Response 200 "OK" maarif_url
              (inr (JObj [("ayah", JInt 255); ("text", JStr "   ")])))
           [("ayah", JInt 255); ("text", JStr "   ")]);
    reflexivity.
Defined.

Lemma prompt_is_deterministic_and_ordered_witness :
  generate_explanation_prompt 2 255 "T" (<["extra" := "E"]> three_texts) =
  generate_explanation_prompt 2 255 "T" three_texts
  /\ (exists a b, generate_explanation_prompt 2 255 "T" three_texts = a +:+ "2" +:+ b)
  /\ (exists a b, generate_explanation_prompt 2 255 "T" three_texts = a +:+ "255" +:+ b)
  /\ (exists a b c d e,
         generate_explanation_prompt 2 255 "T" three_texts =
         a +:+ "T" +:+ b +:+ "C" +:+ c +:+ "K" +:+ d +:+ "M" +:+ e).
Proof.
  apply (prompt_is_deterministic_and_ordered 2 255 "T" three_texts
           (<["extra" := "E"]> three_texts) "C" "K" "M");
    vm_compute; reflexivity.
Defined.

Lemma model_failure_is_500_witness :
  fst (explain_ayah (Some Groq) verse_2_255
         (model_raising (Exn (OtherException "RateLimitError") "Error code: 429")))
  = Ret (Reply
           (jsonify
              [("error",
                JStr "Failed to get explanation from the language model: Error code: 429")])
           500).
Proof.
  eapply (model_failure_is_500
            (model_raising (Exn (OtherException "RateLimitError") "Error code: 429"))
            (Some Groq) verse_2_255 _ _ _
            (Exn (OtherException "RateLimitError") "Error code: 429")).
  - apply surjective_pairing.
  - vm_compute. do 4 right. left. reflexivity.
  - reflexivity.
Defined.

Lemma model_text_returned_verbatim_witness :
  fst (explain_ayah (Some Groq) verse_2_255 healthy)
  = Ret (Reply (jsonify [("explanation", JStr "### The Verse")]) 200).
Proof.
  eapply (model_text_returned_verbatim healthy (Some Groq) verse_2_255 _ _ _
            (ChatCompletion [Some "### The Verse"]) "### The Verse" []).
  - apply surjective_pairing.
  - vm_compute. do 4 right. left. reflexivity.
  - reflexivity.
  - reflexivity.
Defined.

Lemma int_accepts_floats_and_bools_witness :
  py_int (JFloat float_2_9) = Ret 2
  /\ exists r tr,
       explain_ayah (Some Groq) (JObj [("surah", JFloat float_2_9); ("ayah", JInt 1)])
         offline
       = (r, EvGet "http://api.alquran.cloud/v1/ayah/2:1/en.asad" 10 :: tr)
       /\ forall rep, r = Ret rep -> status rep <> 400.
Proof.
  split; [reflexivity|].
  exact (proj1 (int_accepts_floats_and_bools offline Groq
                  [("surah", JFloat float_2_9); ("ayah", JInt 1)]
                  (JFloat float_2_9) (JInt 1) 2 1 eq_refl eq_refl eq_refl eq_refl)).
Defined.

(* ===================================================================== *)
(** ** Further properties of the code *)
(* ===================================================================== *)

(** *** [strip] *)

Lemma lstrip_head s :
  lstrip s = "" \/ exists c r, lstrip s = String c r /\ is_space c = false.
Proof.
  induction s as [|c s IH]; simpl; [auto|].
  destruct (is_space c) eqn:Hc; [exact IH|]. right. eauto.
Qed.

Lemma rstrip_head c s :
  is_space c = false -> exists r, rstrip (String c s) = String c r.
Proof. intros Hc. simpl. destruct (rstrip s); rewrite ?Hc; eauto. Qed.

Lemma rstrip_idempotent s : rstrip (rstrip s) = rstrip s.
Proof.
  induction s as [|c s IH]; simpl; [reflexivity|].
  destruct (rstrip s) as [|c' r] eqn:Hr.
  - destruct (is_space c) eqn:Hc; simpl; [reflexivity|]. rewrite Hc. reflexivity.
  - change (rstrip (String c (String c' r))) with
      (match rstrip (String c' r) with
       | "" => if is_space c then "" else String c ""
       | r0 => String c r0
       end).
    rewrite IH. reflexivity.
Qed.

(** A stripped text has nothing left to strip. *)
Lemma strip_idempotent s : strip (strip s) = strip s.
Proof.
  unfold strip. destruct (lstrip_head s) as [-> | (c & r & -> & Hc)]; [reflexivity|].
  destruct (rstrip_head c r Hc) as [r0 Hr].
  rewrite Hr. simpl lstrip. rewrite Hc. rewrite <- Hr. apply rstrip_idempotent.
Qed.

Section Further.
Context {rt : Runtime}.

(** *** [get_ayah_text] *)

(** X1: when [requests] reports the translation fetch as failed (the call
    raises, the status is 4xx or 5xx, or the body is not JSON),
    [get_ayah_text] makes that one request, prints the text of the
    exception after the words [Error fetching Ayah text: ], and returns
    the network-error text. *)
Theorem translation_failure_gives_network_error w surah ayah :
  request_failed (http_get w (ayah_url surah ayah)) = true ->
  get_ayah_text surah ayah w =
  (Ret (JStr TRANSLATION_NETWORK_ERROR),
   [EvGet (ayah_url surah ayah) 10;
    EvPrint ("Error fetching Ayah text: "
             +:+ failure_cause (http_get w (ayah_url surah ayah)))]).
Proof.
  unfold request_failed, failure_cause, get_ayah_text. run.
  destruct (http_get w _) as [k text | r]; simpl; [reflexivity|].
  destruct ((400 <=? status_code r) && (status_code r <? 500)) eqn:H4; simpl;
    [reflexivity|].
  destruct ((500 <=? status_code r) && (status_code r <? 600)) eqn:H5; simpl;
    [reflexivity|].
  destruct (body r) as [text | v]; simpl; [reflexivity|].
  intros H. exfalso. apply orb_prop in H as [H|H]; [|discriminate].
  apply andb_prop in H as [Ha Hb].
  apply andb_false_iff in H4, H5. lia.
Qed.

(** X2: an answer without error status whose JSON object has [code] equal
    to 200 and, under [data], an object with a truthy [text], makes
    [get_ayah_text] return that text as it is, after one request and
    without printing. *)
Theorem translation_text_returned w surah ayah r items code inner text :
  http_get w (ayah_url surah ayah) = GetReturns r ->
  (400 <=? status_code r) && (status_code r <? 600) = false ->
  body r = inr (JObj items) ->
  lookup "code" items = Some code -> eq_int code 200 = true ->
  lookup "data" items = Some (JObj inner) ->
  lookup "text" inner = Some text -> truthy text = true ->
  get_ayah_text surah ayah w = (Ret text, [EvGet (ayah_url surah ayah) 10]).
Proof.
  intros Hget [H4 H5]%error_status_split Hbody Hcode H200 Hdata Htext Htruthy.
  unfold get_ayah_text. run. rewrite Hget. simpl. rewrite H4, H5. simpl.
  rewrite Hbody. simpl. rewrite Hcode, H200, Hdata. simpl.
  rewrite Htext, Htruthy. reflexivity.
Qed.

(** X3: an answer without error status whose JSON object does not carry
    the translation ([code] absent or different from 200, whatever [data]
    is then; or [data] absent; or [data] an object whose [text] is absent
    or falsy) makes [get_ayah_text] return the not-retrieved text, after
    one request and without printing. *)
Theorem translation_not_retrieved w surah ayah r items :
  http_get w (ayah_url surah ayah) = GetReturns r ->
  (400 <=? status_code r) && (status_code r <? 600) = false ->
  body r = inr (JObj items) ->
  match lookup "code" items with
  | Some code => eq_int code 200 = false
  | None => True
  end
  \/ lookup "data" items = None
  \/ (exists inner,
         lookup "data" items = Some (JObj inner)
         /\ match lookup "text" inner with
            | Some text => truthy text = false
            | None => True
            end) ->
  get_ayah_text surah ayah w =
  (Ret (JStr TRANSLATION_NOT_RETRIEVED), [EvGet (ayah_url surah ayah) 10]).
Proof.
  intros Hget [H4 H5]%error_status_split Hbody Hcases.
  unfold get_ayah_text. run. rewrite Hget. simpl. rewrite H4, H5. simpl.
  rewrite Hbody. simpl.
  destruct (lookup "code" items) as [code|] eqn:Hcode; simpl.
  2:{ reflexivity. }
  destruct (eq_int code 200) eqn:H200; simpl; [|reflexivity].
  destruct Hcases as [Hc | [Hd | (inner & Hd & Ht)]]; [discriminate| |].
  - rewrite Hd. reflexivity.
  - rewrite Hd. simpl. destruct (lookup "text" inner) as [text|]; simpl.
    + rewrite Ht. reflexivity.
    + reflexivity.
Qed.

(** The four ways in which [get_ayah_text] ends. *)
Lemma get_ayah_text_outcomes w surah ayah :
  (exists cause,
      get_ayah_text surah ayah w =
      (Ret (JStr TRANSLATION_NETWORK_ERROR),
       [EvGet (ayah_url surah ayah) 10;
        EvPrint ("Error fetching Ayah text: " +:+ cause)]))
  \/ get_ayah_text surah ayah w =
     (Ret (JStr TRANSLATION_NOT_RETRIEVED), [EvGet (ayah_url surah ayah) 10])
  \/ (exists text,
         truthy text = true
         /\ get_ayah_text surah ayah w = (Ret text, [EvGet (ayah_url surah ayah) 10]))
  \/ (exists v,
         get_ayah_text surah ayah w =
         (Raise (no_attribute v "get"), [EvGet (ayah_url surah ayah) 10])).
Proof.
  unfold get_ayah_text. run.
  destruct (http_get w _) as [k text | r]; simpl; [left; eauto|].
  destruct ((400 <=? status_code r) && (status_code r <? 500)); simpl; [left; eauto|].
  destruct ((500 <=? status_code r) && (status_code r <? 600)); simpl; [left; eauto|].
  destruct (body r) as [text | data]; simpl; [left; eauto|].
  destruct data as [| b | z | f | s | l | items];
    try (right; right; right; eexists; reflexivity).
  simpl. destruct (lookup "code" items) as [code|]; simpl; [|right; left; reflexivity].
  destruct (eq_int code 200); simpl; [|right; left; reflexivity].
  destruct (lookup "data" items) as [inner|] eqn:Hdata; simpl;
    [|right; left; reflexivity].
  destruct inner as [| b | z | f | s | l | inner];
    try (right; right; right; eexists; reflexivity).
  simpl. destruct (lookup "text" inner) as [text|] eqn:Htext; simpl;
    [|right; left; reflexivity].
  destruct (truthy text) eqn:Htruthy; simpl; [|right; left; reflexivity].
  right. right. left. exists text. split; [exact Htruthy|reflexivity].
Qed.

(** X4: whatever the endpoint does, [get_ayah_text] makes exactly one
    request and ends in one of four ways: the network-error text with one
    printed line, the not-retrieved text, a truthy text from the body, or
    an [AttributeError] for a [get] that a decoded value does not have.
    It raises nothing else, never retries and never prints otherwise. *)
Theorem translation_fetch_outcomes w surah ayah :
  (exists cause,
      get_ayah_text surah ayah w =
      (Ret (JStr TRANSLATION_NETWORK_ERROR),
       [EvGet (ayah_url surah ayah) 10;
        EvPrint ("Error fetching Ayah text: " +:+ cause)]))
  \/ get_ayah_text surah ayah w =
     (Ret (JStr TRANSLATION_NOT_RETRIEVED), [EvGet (ayah_url surah ayah) 10])
  \/ (exists text,
         truthy text = true
         /\ get_ayah_text surah ayah w = (Ret text, [EvGet (ayah_url surah ayah) 10]))
  \/ (exists v,
         get_ayah_text surah ayah w =
         (Raise (no_attribute v "get"), [EvGet (ayah_url surah ayah) 10])).
Proof. apply get_ayah_text_outcomes. Qed.

(** *** [get_tafsir_data] *)

Lemma blank_or_not s : all_space s = false -> strip s <> "".
Proof. intros H Hs. apply strip_empty_iff in Hs. congruence. Qed.

(** An iteration makes its one request, then either binds its key to the
    fallback text or to a stripped, non-empty text, or lets the
    [AttributeError] of a missing method escape. *)
Lemma fetch_source_outcomes w surah ayah name slug d :
  (exists v tr0,
      fetch_source surah ayah name slug d w = (Ret (<[name := v]> d), tr0)
      /\ outbound_calls tr0 = [EvGet (tafsir_url slug surah ayah) 10]
      /\ (v = DATA_UNAVAILABLE_MESSAGE \/ exists s, v = strip s /\ strip s <> ""))
  \/ (exists v attr tr0,
         fetch_source surah ayah name slug d w = (Raise (no_attribute v attr), tr0)
         /\ outbound_calls tr0 = [EvGet (tafsir_url slug surah ayah) 10]).
Proof.
  unfold fetch_source. run.
  destruct (http_get w _) as [k text | r]; simpl.
  { left. eexists _, _. split; [reflexivity|]. split; [reflexivity|]. auto. }
  destruct ((400 <=? status_code r) && (status_code r <? 500)); simpl.
  { left. eexists _, _. split; [reflexivity|]. split; [reflexivity|]. auto. }
  destruct ((500 <=? status_code r) && (status_code r <? 600)); simpl.
  { left. eexists _, _. split; [reflexivity|]. split; [reflexivity|]. auto. }
  destruct (body r) as [text | v]; simpl.
  { left. eexists _, _. split; [reflexivity|]. split; [reflexivity|]. auto. }
  destruct v as [| b | z | f | s | l | items]; simpl;
    try (right; eexists _, _, _; split; reflexivity).
  destruct (lookup "text" items) as [[| b | z | f | s | l | items']|]; simpl;
    try (right; eexists _, _, _; split; reflexivity).
  - left. eexists _, _. split; [reflexivity|]. split; [reflexivity|].
    destruct (String.eqb (strip s) "") eqn:He; [auto|].
    apply String.eqb_neq in He. right. eauto.
  - left. eexists _, _. split; [reflexivity|]. split; [reflexivity|]. auto.
Qed.

Lemma fetch_sources_step w surah ayah name slug rest d :
  fetch_sources surah ayah ((name, slug) :: rest) d w =
  match fetch_source surah ayah name slug d w with
  | (Ret d', tr0) =>
      let (r, tr) := fetch_sources surah ayah rest d' w in (r, (tr0 ++ tr)%list)
  | (Raise e, tr0) => (Raise e, tr0)
  end.
Proof. reflexivity. Qed.

(** The loop asks its sources in order and stops at the first one that
    makes it raise; the texts it adds are fallback or stripped texts. *)
Lemma fetch_sources_run w surah ayah sources :
  forall d r tr,
    fetch_sources surah ayah sources d w = (r, tr) ->
    exists k,
      outbound_calls tr = take k (source_requests surah ayah sources)
      /\ match r with
         | Ret m =>
             k = length sources
             /\ forall key text,
                  m !! key = Some text ->
                  d !! key = Some text
                  \/ text = DATA_UNAVAILABLE_MESSAGE
                  \/ exists s, text = strip s /\ strip s <> ""
         | Raise e =>
             exn_class_of e = AttributeError /\ (0 < k <= length sources)%nat
         end.
Proof.
  induction sources as [|[name slug] rest IH]; intros d r tr Hrun.
  - simpl in Hrun. unfold ret in Hrun. injection Hrun as <- <-.
    exists 0%nat. split; [reflexivity|]. split; [reflexivity|]. auto.
  - rewrite fetch_sources_step in Hrun.
    destruct (fetch_source_outcomes w surah ayah name slug d)
      as [(v & tr0 & Hstep & Hout & Hv) | (v & attr & tr0 & Hstep & Hout)];
      rewrite Hstep in Hrun.
    + destruct (fetch_sources surah ayah rest _ w) as [r1 tr1] eqn:Hrest.
      injection Hrun as <- <-.
      destruct (IH _ _ _ Hrest) as (k & Hreq & Hres).
      exists (S k). split.
      { unfold outbound_calls in *. rewrite filter_app, Hout, Hreq. reflexivity. }
      destruct r1 as [m|e].
      * destruct Hres as [-> Hvals]. split; [reflexivity|].
        intros key text Hm. destruct (Hvals _ _ Hm) as [Hd|Hd]; [|auto].
        destruct (decide (name = key)) as [->|Hne].
        -- rewrite lookup_insert_eq in Hd. injection Hd as <-. auto.
        -- rewrite lookup_insert_ne in Hd by exact Hne. auto.
      * destruct Hres as [Hcls Hk]. split; [exact Hcls|]. simpl. lia.
    + injection Hrun as <- <-. exists 1%nat. split; [exact Hout|].
      split; [reflexivity|]. simpl. lia.
Qed.

(** X5: a mapping that [get_tafsir_data] returns has exactly the keys
    [context], [classical] and [modern]; every text in it is non-empty and
    has no blanks left at either end; and the three sources were each
    requested once, in the order of [TAFSIR_SOURCES]. *)
Theorem commentary_mapping_shape w surah ayah m tr :
  get_tafsir_data surah ayah w = (Ret m, tr) ->
  (forall key, is_Some (m !! key) <-> In key ["context"; "classical"; "modern"])
  /\ (forall key text, m !! key = Some text -> text <> "" /\ strip text = text)
  /\ outbound_calls tr = source_requests surah ayah TAFSIR_SOURCES.
Proof.
  intros Hrun. split; [|split].
  - destruct (fetch_sources_shape _ _ _ _ _ _ _ Hrun) as [Hdom _].
    intros key. rewrite Hdom, lookup_empty. simpl.
    split; [intros [[? ?]|H]; [discriminate|exact H] | auto].
  - destruct (fetch_sources_run _ _ _ _ _ _ _ Hrun) as (k & _ & _ & Hvals).
    intros key text Hm.
    destruct (Hvals _ _ Hm) as [Hd | [-> | (s & -> & Hs)]].
    + rewrite lookup_empty in Hd. discriminate.
    + split; [discriminate|reflexivity].
    + split; [exact Hs|apply strip_idempotent].
  - destruct (fetch_sources_run _ _ _ _ _ _ _ Hrun) as (k & Hreq & -> & _).
    rewrite Hreq. reflexivity.
Qed.

Lemma fetch_source_usable w surah ayah slug :
  request_failed (http_get w (tafsir_url slug surah ayah)) = true
  \/ well_formed_commentary (http_get w (tafsir_url slug surah ayah)) ->
  exists v tr0, forall name d,
    fetch_source surah ayah name slug d w = (Ret (<[name := v]> d), tr0).
Proof.
  intros [Hfail | Hwell].
  - destruct (fetch_source_failed w surah ayah slug Hfail) as [line Hstep]. eauto.
  - unfold well_formed_commentary in Hwell. unfold fetch_source. run.
    destruct (http_get w _) as [k text | r]; [contradiction|].
    destruct Hwell as [[H4 H5]%error_status_split Hbody]. simpl.
    rewrite H4, H5. simpl.
    destruct (body r) as [text | [| b | z | f | s | l | items]]; try contradiction.
    simpl.
    destruct (lookup "text" items) as [[| b | z | f | s | l | items']|];
      try contradiction; simpl; eauto.
Qed.

Lemma fetch_sources_return w surah ayah sources :
  (forall source, In source sources ->
     request_failed (http_get w (tafsir_url (snd source) surah ayah)) = true
     \/ well_formed_commentary (http_get w (tafsir_url (snd source) surah ayah))) ->
  forall d, exists m tr, fetch_sources surah ayah sources d w = (Ret m, tr).
Proof.
  induction sources as [|[name slug] rest IH]; intros Hall d.
  - eexists _, _. reflexivity.
  - destruct (fetch_source_usable w surah ayah slug (Hall (name, slug) (or_introl eq_refl)))
      as (v & tr0 & Hstep).
    rewrite fetch_sources_step, Hstep.
    destruct (IH (fun source Hin => Hall source (or_intror Hin)) (<[name := v]> d))
      as (m & tr & ->).
    eauto.
Qed.

(** X6: when each of the three commentary endpoints either fails as
    [requests] reports it, or answers a JSON object whose text is a str or
    absent, [get_tafsir_data] returns a mapping, having made exactly the
    three requests in the order of [TAFSIR_SOURCES]. *)
Theorem commentary_returns_on_usable_answers w surah ayah :
  (forall source, In source TAFSIR_SOURCES ->
     request_failed (http_get w (tafsir_url (snd source) surah ayah)) = true
     \/ well_formed_commentary (http_get w (tafsir_url (snd source) surah ayah))) ->
  exists m tr,
    get_tafsir_data surah ayah w = (Ret m, tr)
    /\ outbound_calls tr = source_requests surah ayah TAFSIR_SOURCES.
Proof.
  intros Hall.
  destruct (fetch_sources_return w surah ayah TAFSIR_SOURCES Hall empty) as (m & tr & Hrun).
  exists m, tr. split; [exact Hrun|].
  destruct (fetch_sources_run _ _ _ _ _ _ _ Hrun) as (k & Hreq & -> & _).
  rewrite Hreq. reflexivity.
Qed.

(** X7: whatever the endpoints do, [get_tafsir_data] requests the sources
    in the order of [TAFSIR_SOURCES], each at most once and the first one
    always; it stops early only by raising an [AttributeError], and a
    mapping comes back only after all three requests. *)
Theorem commentary_requests_in_source_order w surah ayah :
  exists r tr k,
    get_tafsir_data surah ayah w = (r, tr)
    /\ (0 < k <= 3)%nat
    /\ outbound_calls tr = take k (source_requests surah ayah TAFSIR_SOURCES)
    /\ match r with
       | Ret _ => k = 3%nat
       | Raise e => exn_class_of e = AttributeError
       end.
Proof.
  destruct (get_tafsir_data surah ayah w) as [r tr] eqn:Hrun.
  destruct (fetch_sources_run _ _ _ _ _ _ _ Hrun) as (k & Hreq & Hres).
  exists r, tr, k. split; [reflexivity|].
  destruct r as [m|e].
  - destruct Hres as [-> _]. split; [simpl; lia|]. split; [exact Hreq|reflexivity].
  - destruct Hres as [Hcls Hk]. split; [exact Hk|]. split; [exact Hreq|exact Hcls].
Qed.

(** X8: a source answered without error status by a JSON object whose
    text is a str with something other than blanks in it is stored
    stripped: the iteration binds the key to [strip] of the text, makes no
    other event than its request, and the mapping that comes back holds
    the stripped text under that key. *)
Theorem commentary_text_is_stripped w surah ayah pre name slug post r items s :
  TAFSIR_SOURCES = (pre ++ (name, slug) :: post)%list ->
  http_get w (tafsir_url slug surah ayah) = GetReturns r ->
  (400 <=? status_code r) && (status_code r <? 600) = false ->
  body r = inr (JObj items) ->
  lookup "text" items = Some (JStr s) ->
  all_space s = false ->
  (forall d,
      fetch_source surah ayah name slug d w =
      (Ret (<[name := strip s]> d), [EvGet (tafsir_url slug surah ayah) 10]))
  /\ (forall m tr,
         get_tafsir_data surah ayah w = (Ret m, tr) -> m !! name = Some (strip s)).
Proof.
  intros Hsplit Hget [H4 H5]%error_status_split Hbody Htext Hs.
  assert (Hstep : forall d,
             fetch_source surah ayah name slug d w =
             (Ret (<[name := strip s]> d), [EvGet (tafsir_url slug surah ayah) 10])).
  { intros d. unfold fetch_source. run. rewrite Hget. simpl. rewrite H4, H5. simpl.
    rewrite Hbody. simpl. rewrite Htext. simpl.
    destruct (String.eqb (strip s) "") eqn:He; [|reflexivity].
    apply String.eqb_eq in He. destruct (blank_or_not s Hs He). }
  split; [exact Hstep|].
  intros m tr Hrun. unfold get_tafsir_data in Hrun. rewrite Hsplit in Hrun.
  eapply fetch_sources_records; [|eapply sources_split, Hsplit|exact Hrun].
  intros d. eexists. apply Hstep.
Qed.

(** X9: a source answered without error status by a JSON object that has
    no text key at all is unavailable: the default of [get] is the empty
    str, so the key is bound to [DATA_UNAVAILABLE_MESSAGE]. *)
Theorem missing_text_is_unavailable w surah ayah pre name slug post r items :
  TAFSIR_SOURCES = (pre ++ (name, slug) :: post)%list ->
  http_get w (tafsir_url slug surah ayah) = GetReturns r ->
  (400 <=? status_code r) && (status_code r <? 600) = false ->
  body r = inr (JObj items) ->
  lookup "text" items = None ->
  (forall d,
      fetch_source surah ayah name slug d w =
      (Ret (<[name := DATA_UNAVAILABLE_MESSAGE]> d),
       [EvGet (tafsir_url slug surah ayah) 10]))
  /\ (forall m tr,
         get_tafsir_data surah ayah w = (Ret m, tr) ->
         m !! name = Some DATA_UNAVAILABLE_MESSAGE).
Proof.
  intros Hsplit Hget [H4 H5]%error_status_split Hbody Htext.
  assert (Hstep : forall d,
             fetch_source surah ayah name slug d w =
             (Ret (<[name := DATA_UNAVAILABLE_MESSAGE]> d),
              [EvGet (tafsir_url slug surah ayah) 10])).
  { intros d. unfold fetch_source. run. rewrite Hget. simpl. rewrite H4, H5. simpl.
    rewrite Hbody. simpl. rewrite Htext. reflexivity. }
  split; [exact Hstep|].
  intros m tr Hrun. unfold get_tafsir_data in Hrun. rewrite Hsplit in Hrun.
  eapply fetch_sources_records; [|eapply sources_split, Hsplit|exact Hrun].
  intros d. eexists. apply Hstep.
Qed.

(** *** [generate_explanation_prompt] *)

(** X10: a key that the mapping lacks does not make the prompt fail:
    [get] yields [None], and the word [None] is printed on the line under
    the heading of that key. *)
Theorem prompt_prints_None_for_missing_key
    surah ayah ayah_text (tafsir_data : gmap string string) key heading :
  In (key, heading) commentary_headings ->
  tafsir_data !! key = None ->
  exists a b,
    generate_explanation_prompt surah ayah ayah_text tafsir_data =
    a +:+ (heading +:+ newline +:+ "None" +:+ newline) +:+ b.
Proof.
  intros Hin Hnone. unfold generate_explanation_prompt.
  rewrite unlines_app. cbn [unlines].
  apply infix_after.
  destruct Hin as [[= <- <-] | [[= <- <-] | [[= <- <-] | []]]];
    unfold format_get at 1 2 3; rewrite Hnone.
  - do 6 apply infix_after. exists "". eexists. reflexivity.
  - do 12 apply infix_after. exists "". eexists. reflexivity.
  - do 18 apply infix_after. exists "". eexists. reflexivity.
Qed.

(** *** [explain_ayah] *)

(** The presence test raises only on a number or [True], for which [in]
    is not defined. *)
Lemma missing_fields_raises data e :
  missing_fields data = Raise e ->
  match data with JBool _ | JInt _ | JFloat _ => truthy data = true | _ => False end
  /\ e = Exn TypeError ("argument of type '" +:+ type_name data +:+ "' is not iterable").
Proof.
  unfold missing_fields, rbind.
  destruct (truthy data) eqn:Ht; cbn [negb]; [|discriminate].
  destruct data as [| b | z | f | s | l | items]; cbn [contains].
  - discriminate.
  - intros [= <-]. auto.
  - intros [= <-]. auto.
  - intros [= <-]. auto.
  - destruct (negb (str_contains "surah" s)); discriminate.
  - destruct (negb _); discriminate.
  - destruct (negb _); discriminate.
Qed.

Lemma missing_fields_number data :
  match data with JBool _ | JInt _ | JFloat _ => truthy data = true | _ => False end ->
  missing_fields data =
  Raise (Exn TypeError ("argument of type '" +:+ type_name data +:+ "' is not iterable")).
Proof.
  unfold missing_fields, rbind.
  destruct data; try contradiction; intros ->; reflexivity.
Qed.

(** Past the presence test, an object has both fields. *)
Lemma missing_fields_object items :
  missing_fields (JObj items) = Ret false ->
  exists s a, lookup "surah" items = Some s /\ lookup "ayah" items = Some a.
Proof.
  unfold missing_fields, rbind, contains.
  destruct (truthy (JObj items)); cbn [negb]; [|discriminate].
  destruct (lookup "surah" items) as [s|]; cbn [negb]; [|discriminate].
  destruct (lookup "ayah" items) as [a|]; cbn [negb]; [eauto|discriminate].
Qed.

Lemma py_int_raises v e :
  py_int v = Raise e ->
  is_ValueError e || is_TypeError e = true
  \/ (exists sign, v = JFloat (S754_infinity sign))
     /\ e = Exn OverflowError "cannot convert float infinity to integer".
Proof.
  destruct v as [| b | z | f | s | l | items]; simpl; try discriminate;
    try (intros [= <-]; left; reflexivity).
  - destruct f; try discriminate; intros [= <-]; [right; eauto | left; reflexivity].
  - destruct (int_of_str s); [discriminate|]. intros [= <-]. left. reflexivity.
Qed.

(** A conversion error that the handler of the view does not catch is
    the [OverflowError] of an infinite float. *)
Lemma convert_uncaught data e :
  missing_fields data = Ret false ->
  convert data = Raise e ->
  is_ValueError e || is_TypeError e = false ->
  e = Exn OverflowError "cannot convert float infinity to integer".
Proof.
  intros Hm Hc He.
  destruct data as [| b | z | f | s | l | items];
    try (unfold convert in Hc; simpl in Hc; injection Hc as <-; discriminate).
  destruct (missing_fields_object items Hm) as (sv & av & Hs & Ha).
  rewrite (convert_object _ _ _ Hs Ha) in Hc. unfold rbind in Hc.
  destruct (py_int sv) as [surah|e1] eqn:H1.
  - destruct (py_int av) as [ayah|e2] eqn:H2; [discriminate|].
    injection Hc as ->.
    destruct (py_int_raises _ _ H2) as [Hcaught | [_ ->]]; [congruence|reflexivity].
  - injection Hc as ->.
    destruct (py_int_raises _ _ H1) as [Hcaught | [_ ->]]; [congruence|reflexivity].
Qed.

(** The view before the first fetch: the four ways it can go. *)
Lemma explain_ayah_classified groq_client data w :
  (groq_client = None
   /\ explain_ayah groq_client data w =
      (Ret (Reply (jsonify [("error", JStr NOT_INITIALIZED)]) 500), []))
  \/ (groq_client <> None
      /\ exists msg,
           (msg = MISSING_NUMBER \/ msg = MUST_BE_NUMBERS)
           /\ explain_ayah groq_client data w =
              (Ret (Reply (jsonify [("error", JStr msg)]) 400), []))
  \/ (groq_client <> None
      /\ exists e,
           (exn_class_of e = TypeError \/ exn_class_of e = OverflowError)
           /\ explain_ayah groq_client data w = (Raise e, []))
  \/ (groq_client <> None
      /\ exists surah ayah,
           explain_ayah groq_client data w = after_validation surah ayah w).
Proof.
  destruct groq_client as [client|]; [right|left; split; reflexivity].
  assert (Hsome : Some client <> None) by discriminate.
  destruct (missing_fields data) as [[|]|e] eqn:Hm.
  - left. split; [exact Hsome|]. exists MISSING_NUMBER. split; [auto|].
    unfold explain_ayah. run. rewrite Hm. reflexivity.
  - destruct (convert data) as [[surah ayah]|e] eqn:Hc.
    + right. right. split; [exact Hsome|]. exists surah, ayah.
      apply explain_ayah_converted; assumption.
    + destruct (is_ValueError e || is_TypeError e) eqn:He.
      * left. split; [exact Hsome|]. exists MUST_BE_NUMBERS. split; [auto|].
        unfold explain_ayah. run. rewrite Hm, Hc. simpl. rewrite He. reflexivity.
      * right. left. split; [exact Hsome|]. exists e.
        split; [right; rewrite (convert_uncaught _ _ Hm Hc He); reflexivity|].
        unfold explain_ayah. run. rewrite Hm, Hc. simpl. rewrite He. reflexivity.
  - right. left. split; [exact Hsome|]. exists e.
    destruct (missing_fields_raises _ _ Hm) as [_ ->].
    split; [left; reflexivity|].
    unfold explain_ayah. run. rewrite Hm. reflexivity.
Qed.

(** The translation fetcher makes its one request and raises nothing but
    an [AttributeError]. *)
Lemma get_ayah_text_run w surah ayah :
  exists r tr,
    get_ayah_text surah ayah w = (r, tr)
    /\ outbound_calls tr = [EvGet (ayah_url surah ayah) 10]
    /\ forall e, r = Raise e -> exn_class_of e = AttributeError.
Proof.
  destruct (get_ayah_text_outcomes w surah ayah)
    as [(cause & ->) | [-> | [(text & _ & ->) | (v & ->)]]];
    eexists _, _; (split; [reflexivity|]); (split; [reflexivity|]);
    intros e [=]; subst; reflexivity.
Qed.

(** Past validation: the calls made are the start of the full sequence;
    all of it when the view replies, and not the completion call when a
    fetcher raised. *)
Lemma after_validation_outcomes surah ayah w :
  exists r tr n prompt,
    after_validation surah ayah w = (r, tr)
    /\ outbound_calls tr = take n (full_call_sequence surah ayah prompt)
    /\ match r with
       | Ret rep =>
           n = 5%nat
           /\ rep = reply_of_completion
                      (chat_completions_create w (completion_request_for prompt))
       | Raise e => exn_class_of e = AttributeError /\ (0 < n <= 4)%nat
       end.
Proof.
  unfold after_validation, bind.
  destruct (get_ayah_text_run w surah ayah) as (r1 & tr1 & -> & Hout1 & Hcls1).
  destruct r1 as [ayah_text|e1].
  2:{ exists (Raise e1), tr1, 1%nat, "". split; [reflexivity|].
      split; [exact Hout1|]. split; [auto|lia]. }
  destruct (get_tafsir_data surah ayah w) as [r2 tr2] eqn:Hrun2.
  destruct (fetch_sources_run _ _ _ _ _ _ _ Hrun2) as (k & Hout2 & Hres2).
  destruct r2 as [tafsir_data|e2].
  - destruct Hres2 as [-> _].
    eexists _, _, 5%nat, _. split; [reflexivity|]. split; [|split; reflexivity].
    unfold outbound_calls in *. rewrite !filter_app, Hout1, Hout2.
    destruct (chat_completions_create w _) as [e|[[|c cs]]]; reflexivity.
  - destruct Hres2 as [Hcls2 Hk].
    exists (Raise e2), (tr1 ++ tr2)%list, (S k), "". split; [reflexivity|]. split.
    + unfold outbound_calls in *. rewrite filter_app, Hout1, Hout2.
      unfold full_call_sequence. cbn [app take]. f_equal.
      symmetry. apply take_app_le. exact (proj2 Hk).
    + split; [exact Hcls2|]. simpl in Hk. lia.
Qed.

Lemma get_tafsir_data_all_failed w surah ayah :
  (forall source, In source TAFSIR_SOURCES ->
     request_failed (http_get w (tafsir_url (snd source) surah ayah)) = true) ->
  exists tr,
    get_tafsir_data surah ayah w = (Ret all_unavailable, tr)
    /\ outbound_calls tr = source_requests surah ayah TAFSIR_SOURCES.
Proof.
  intros Hall.
  destruct (fetch_source_failed w surah ayah "en-kashf-al-asrar-tafsir") as [l1 H1].
  { apply (Hall ("context", "en-kashf-al-asrar-tafsir")). simpl. auto. }
  destruct (fetch_source_failed w surah ayah "en-tafisr-ibn-kathir") as [l2 H2].
  { apply (Hall ("classical", "en-tafisr-ibn-kathir")). simpl. auto. }
  destruct (fetch_source_failed w surah ayah "en-tafsir-maarif-ul-quran") as [l3 H3].
  { apply (Hall ("modern", "en-tafsir-maarif-ul-quran")). simpl. auto. }
  unfold get_tafsir_data, TAFSIR_SOURCES.
  rewrite fetch_sources_step, H1, fetch_sources_step, H2, fetch_sources_step, H3.
  eexists. split; reflexivity.
Qed.

(** X11: unavailable data does not fail a request.  When the body is
    valid and all four fetches fail as [requests] reports it, the view
    still calls the model, once and after the four requests, with the
    prompt built from the network-error text and the fallback text of the
    three sources, and replies with what that call gives. *)
Theorem unavailable_data_still_generates w client items s a surah ayah :
  lookup "surah" items = Some s -> lookup "ayah" items = Some a ->
  py_int s = Ret surah -> py_int a = Ret ayah ->
  request_failed (http_get w (ayah_url surah ayah)) = true ->
  (forall source, In source TAFSIR_SOURCES ->
     request_failed (http_get w (tafsir_url (snd source) surah ayah)) = true) ->
  exists tr,
    explain_ayah (Some client) (JObj items) w =
    (Ret (reply_of_completion
            (chat_completions_create w
               (completion_request_for
                  (generate_explanation_prompt surah ayah TRANSLATION_NETWORK_ERROR
                     all_unavailable)))),
     tr)
    /\ outbound_calls tr =
       full_call_sequence surah ayah
         (generate_explanation_prompt surah ayah TRANSLATION_NETWORK_ERROR all_unavailable).
Proof.
  intros Hs Ha His Hia Hverse Hsources.
  rewrite (explain_ayah_validated client items s a surah ayah w Hs Ha His Hia).
  destruct (get_ayah_text_failed w surah ayah Hverse) as [line Htext].
  destruct (get_tafsir_data_all_failed w surah ayah Hsources) as (tr2 & Htaf & Hout2).
  unfold after_validation, bind. rewrite Htext, Htaf.
  eexists. split; [reflexivity|].
  unfold outbound_calls in *. rewrite !filter_app, Hout2.
  destruct (chat_completions_create w _) as [e|[[|c cs]]]; reflexivity.
Qed.

(** X12: a translation answer that decodes to something other than an
    object fails the whole request.  With a valid body, the
    [AttributeError] of [get_ayah_text] leaves the view unhandled, after
    that one request: no commentary is fetched and the model is not
    called. *)
Theorem malformed_translation_faults_the_view w client items s a surah ayah r v :
  lookup "surah" items = Some s -> lookup "ayah" items = Some a ->
  py_int s = Ret surah -> py_int a = Ret ayah ->
  http_get w (ayah_url surah ayah) = GetReturns r ->
  (400 <=? status_code r) && (status_code r <? 600) = false ->
  body r = inr v ->
  match v with JObj _ => False | _ => True end ->
  explain_ayah (Some client) (JObj items) w =
  (Raise (no_attribute v "get"), [EvGet (ayah_url surah ayah) 10]).
Proof.
  intros Hs Ha His Hia Hget Hstatus Hbody Hv.
  rewrite (explain_ayah_validated client items s a surah ayah w Hs Ha His Hia).
  unfold after_validation, bind.
  rewrite (get_ayah_text_not_a_dict w surah ayah r v Hget Hstatus Hbody Hv).
  reflexivity.
Qed.

(** X13: a completion that comes back with no choice at all is a failure
    of the model call: [choices[0]] raises [IndexError] inside the guarded
    block, and the view replies 500 with that cause. *)
Theorem empty_choices_is_500 w groq_client data r tr req c :
  explain_ayah groq_client data w = (r, tr) ->
  In (EvCompletion req) tr ->
  chat_completions_create w req = CreateReturns c ->
  choices c = [] ->
  r = Ret (Reply (jsonify [("error", JStr (MODEL_FAILED +:+ "list index out of range"))])
             500).
Proof.
  intros Hrun Hin Hret Hchoices.
  destruct (explain_ayah_cases groq_client data w) as [[r0 H0] | (surah & ayah & H0)];
    rewrite H0 in Hrun.
  - injection Hrun as _ <-. destruct Hin.
  - rewrite (after_validation_completion _ _ _ _ _ _ Hrun Hin), Hret.
    unfold reply_of_completion. rewrite Hchoices. reflexivity.
Qed.

(** X14: a first choice without content is not an error: the view
    replies 200 with a null [explanation]. *)
Theorem null_content_is_200_null w groq_client data r tr req c others :
  explain_ayah groq_client data w = (r, tr) ->
  In (EvCompletion req) tr ->
  chat_completions_create w req = CreateReturns c ->
  choices c = None :: others ->
  r = Ret (Reply (jsonify [("explanation", JNull)]) 200).
Proof.
  intros Hrun Hin Hret Hchoices.
  destruct (explain_ayah_cases groq_client data w) as [[r0 H0] | (surah & ayah & H0)];
    rewrite H0 in Hrun.
  - injection Hrun as _ <-. destruct Hin.
  - rewrite (after_validation_completion _ _ _ _ _ _ Hrun Hin), Hret.
    unfold reply_of_completion. rewrite Hchoices. reflexivity.
Qed.

(** X15: with the client initialised, a body that is falsy (null, false,
    zero, an empty str, list or object), or that is a list or a str, is
    answered 400 before any event: as missing when it is falsy, and
    otherwise as missing or as not numbers, a list or str having no field
    to read. *)
Theorem unfit_bodies_get_400 w client data :
  truthy data = false \/ (exists l, data = JList l) \/ (exists s, data = JStr s) ->
  exists msg,
    explain_ayah (Some client) data w =
    (Ret (Reply (jsonify [("error", JStr msg)]) 400), [])
    /\ (msg = MISSING_NUMBER \/ msg = MUST_BE_NUMBERS)
    /\ (truthy data = false -> msg = MISSING_NUMBER).
Proof.
  assert (Hmissing : missing_fields data = Ret true ->
                     explain_ayah (Some client) data w =
                     (Ret (Reply (jsonify [("error", JStr MISSING_NUMBER)]) 400), [])).
  { intros Hm. unfold explain_ayah. run. rewrite Hm. reflexivity. }
  intros Hdata.
  destruct (truthy data) eqn:Ht.
  2:{ exists MISSING_NUMBER. split; [|auto].
      apply Hmissing. unfold missing_fields. rewrite Ht. reflexivity. }
  destruct Hdata as [Hf | Hshape]; [discriminate|].
  destruct (missing_fields data) as [[|]|e] eqn:Hm.
  - exists MISSING_NUMBER. split; [auto|]. split; [auto|discriminate].
  - exists MUST_BE_NUMBERS. split; [|split; [auto|discriminate]].
    unfold explain_ayah. run. rewrite Hm.
    destruct Hshape as [[l ->] | [s ->]]; reflexivity.
  - destruct (missing_fields_raises _ _ Hm) as [Hnum _].
    destruct Hshape as [[l ->] | [s ->]]; contradiction.
Qed.

(** X16: with the client initialised, a body that is a non-zero number or
    [true] is not answered at all: the presence test [in] raises
    [TypeError] outside any handler, and the exception leaves the view
    before any event. *)
Theorem bare_number_body_faults w client data :
  match data with JBool _ | JInt _ | JFloat _ => truthy data = true | _ => False end ->
  explain_ayah (Some client) data w =
  (Raise (Exn TypeError ("argument of type '" +:+ type_name data +:+ "' is not iterable")),
   []).
Proof.
  intros Hnum. unfold explain_ayah. run.
  rewrite (missing_fields_number data Hnum). reflexivity.
Qed.

(** X17: an infinite float in a field is not answered 400: [int()] raises
    [OverflowError], which the handler for [ValueError] and [TypeError]
    does not catch, and the exception leaves the view before any event.
    This holds for [surah], and for [ayah] when [surah] converts. *)
Theorem infinite_float_faults w client items sv av sign :
  lookup "surah" items = Some sv -> lookup "ayah" items = Some av ->
  sv = JFloat (S754_infinity sign)
  \/ ((exists surah, py_int sv = Ret surah) /\ av = JFloat (S754_infinity sign)) ->
  explain_ayah (Some client) (JObj items) w =
  (Raise (Exn OverflowError "cannot convert float infinity to integer"), []).
Proof.
  intros Hs Ha Hinf. unfold explain_ayah. run.
  rewrite (missing_fields_present items sv av Hs Ha).
  rewrite (convert_object items sv av Hs Ha).
  destruct Hinf as [-> | [[surah Hsurah] ->]].
  - reflexivity.
  - rewrite Hsurah. reflexivity.
Qed.

(** From the decoded body on, an exception that leaves is a [TypeError]
    or an [OverflowError] raised before any event, or an [AttributeError]
    out of a fetcher. *)
Lemma explain_ayah_exceptions w groq_client data e tr :
  explain_ayah groq_client data w = (Raise e, tr) ->
  (tr = [] /\ (exn_class_of e = TypeError \/ exn_class_of e = OverflowError))
  \/ (exn_class_of e = AttributeError
      /\ exists surah ayah n,
           (0 < n <= 4)%nat
           /\ outbound_calls tr =
              take n (EvGet (ayah_url surah ayah) 10
                      :: source_requests surah ayah TAFSIR_SOURCES)).
Proof.
  intros Hrun.
  destruct (explain_ayah_classified groq_client data w)
    as [[_ H] | [(_ & msg & _ & H) | [(_ & e0 & Hcls & H) | (_ & surah & ayah & H)]]];
    rewrite H in Hrun.
  - discriminate.
  - discriminate.
  - injection Hrun as <- <-. left. auto.
  - right.
    destruct (after_validation_outcomes surah ayah w)
      as (r & tr0 & n & prompt & Hav & Hout & Hres).
    rewrite Hav in Hrun. injection Hrun as -> ->.
    destruct Hres as [Hcls Hn]. split; [exact Hcls|].
    exists surah, ayah, n. split; [exact Hn|].
    rewrite Hout. unfold full_call_sequence.
    change (EvGet (ayah_url surah ayah) 10
            :: source_requests surah ayah TAFSIR_SOURCES
               ++ [EvCompletion (completion_request_for prompt)])%list
      with ((EvGet (ayah_url surah ayah) 10
             :: source_requests surah ayah TAFSIR_SOURCES)
            ++ [EvCompletion (completion_request_for prompt)])%list.
    apply take_app_le. simpl. lia.
Qed.

(** X18: an exception that leaves the view is one of these: the
    [UnsupportedMediaType] or [BadRequest] that [get_json] raises for a
    request without a decoded body, before any event; a [TypeError] or an
    [OverflowError] raised on a decoded body, before any event; or an
    [AttributeError] out of a fetcher, raised after at least the
    translation request and before any call of the model.  No
    [RequestException], [ValueError], [KeyError] or [IndexError] ever
    leaves it. *)
Theorem view_exceptions_classified w groq_client req e tr :
  explain_ayah_view groq_client req w = (Raise e, tr) ->
  (tr = []
   /\ ((req = NotJson
        /\ e = Exn (OtherException "UnsupportedMediaType") UNSUPPORTED_MEDIA_TYPE)
       \/ (exists text,
              req = Undecodable text /\ e = Exn (OtherException "BadRequest") text)))
  \/ (tr = []
      /\ (exists data, req = Json data)
      /\ (exn_class_of e = TypeError \/ exn_class_of e = OverflowError))
  \/ ((exists data, req = Json data)
      /\ exn_class_of e = AttributeError
      /\ exists surah ayah n,
           (0 < n <= 4)%nat
           /\ outbound_calls tr =
              take n (EvGet (ayah_url surah ayah) 10
                      :: source_requests surah ayah TAFSIR_SOURCES)).
Proof.
  destruct groq_client as [client|]; [|discriminate].
  destruct req as [|text|data]; unfold explain_ayah_view, get_json; run.
  - intros [= <- <-]. left. auto.
  - intros [= <- <-]. left. split; [reflexivity|]. right. eauto.
  - destruct (explain_ayah (Some client) data w) as [r tr0] eqn:Hrun.
    intros [= -> ->].
    destruct (explain_ayah_exceptions _ _ _ _ _ Hrun) as [[-> Hcls] | [Hcls Hcalls]].
    + right. left. eauto.
    + right. right. eauto.
Qed.

(** X19: a reply of the view is one of three kinds: the 500 of the
    uninitialised client, before any event; a 400, with the client
    initialised and before any event; or, with the client initialised, the
    200 or 500 that the outcome of the completion call decides, after the
    translation request, the three commentary requests and that call, in
    this order. *)
Theorem view_replies_classified w groq_client data rep tr :
  explain_ayah groq_client data w = (Ret rep, tr) ->
  (groq_client = None /\ tr = []
   /\ rep = Reply (jsonify [("error", JStr NOT_INITIALIZED)]) 500)
  \/ (groq_client <> None /\ tr = [] /\ status rep = 400)
  \/ (groq_client <> None
      /\ (status rep = 200 \/ status rep = 500)
      /\ exists surah ayah prompt,
           rep = reply_of_completion
                   (chat_completions_create w (completion_request_for prompt))
           /\ outbound_calls tr = full_call_sequence surah ayah prompt).
Proof.
  intros Hrun.
  destruct (explain_ayah_classified groq_client data w)
    as [[Hgc H] | [(Hgc & msg & _ & H) | [(_ & e0 & Hcls & H) | (Hgc & surah & ayah & H)]]];
    rewrite H in Hrun.
  - injection Hrun as <- <-. left. auto.
  - injection Hrun as <- <-. right. left. auto.
  - discriminate.
  - right. right. split; [exact Hgc|].
    split; [eapply after_validation_status, Hrun|].
    destruct (after_validation_outcomes surah ayah w)
      as (r & tr0 & n & prompt & Hav & Hout & Hres).
    rewrite Hav in Hrun. injection Hrun as -> ->.
    destruct Hres as [-> ->]. exists surah, ayah, prompt.
    split; [reflexivity|]. rewrite Hout. reflexivity.
Qed.

(** X20: the outbound calls of a request are always the beginning of one
    fixed sequence: the translation request, the three commentary requests
    in the order of [TAFSIR_SOURCES], then one completion call.  So a
    request makes at most five calls, never repeats one and never fetches
    after it has called the model. *)
Theorem outbound_calls_follow_fixed_order w groq_client data :
  exists r tr surah ayah prompt n,
    explain_ayah groq_client data w = (r, tr)
    /\ (n <= 5)%nat
    /\ outbound_calls tr = take n (full_call_sequence surah ayah prompt).
Proof.
  destruct (explain_ayah_classified groq_client data w)
    as [[_ H] | [(_ & msg & _ & H) | [(_ & e0 & _ & H) | (_ & surah & ayah & H)]]].
  - eexists _, _, 0, 0, "", 0%nat. split; [exact H|]. split; [lia|reflexivity].
  - eexists _, _, 0, 0, "", 0%nat. split; [exact H|]. split; [lia|reflexivity].
  - eexists _, _, 0, 0, "", 0%nat. split; [exact H|]. split; [lia|reflexivity].
  - destruct (after_validation_outcomes surah ayah w)
      as (r & tr & n & prompt & Hav & Hout & Hres).
    exists r, tr, surah, ayah, prompt, n. rewrite H. split; [exact Hav|].
    split; [|exact Hout].
    destruct r; [destruct Hres as [-> _]|destruct Hres as [_ Hn]]; lia.
Qed.

(** X21: for every chapter and verse, the four URLs requested are
    pairwise different, so no endpoint is asked twice in a request. *)
Theorem fetch_urls_are_distinct surah ayah :
  NoDup (ayah_url surah ayah
         :: map (fun source => tafsir_url (snd source) surah ayah) TAFSIR_SOURCES).
Proof.
  unfold ayah_url, tafsir_url, QURAN_API_BASE_URL, TAFSIR_API_BASE_URL, TAFSIR_SOURCES.
  cbn [map snd].
  repeat (apply NoDup_cons; split;
          [rewrite ?list_elem_of_In; cbn [In]; intros H;
           repeat (destruct H as [H|H]; [discriminate H|]); exact H|]).
  apply NoDup_nil. exact I.
Qed.


End Further.

(** *** The further properties at work on concrete requests *)

Lemma translation_failure_gives_network_error_witness :
  request_failed (http_get offline (ayah_url 2 255)) = true
  /\ get_ayah_text 2 255 offline =
     (Ret (JStr TRANSLATION_NETWORK_ERROR),
      [EvGet (ayah_url 2 255) 10;
       EvPrint "Error fetching Ayah text: Max retries exceeded"]).
Proof.
  split; [reflexivity|].
  exact (translation_failure_gives_network_error offline 2 255 eq_refl).
Defined.

Lemma translation_text_returned_witness :
  get_ayah_text 2 255 healthy =
  (Ret (JStr "GOD - there is no deity save Him"), [EvGet (ayah_url 2 255) 10]).
Proof.
  apply (translation_text_returned healthy 2 255
           (Response 200 "OK" (ayah_url 2 255) (inr (JObj verse_body)))
           verse_body (JInt 200) verse_data (JStr "GOD - there is no deity save Him"));
    reflexivity.
Defined.

Lemma translation_not_retrieved_witness :
  get_ayah_text 2 255
    (answering (ayah_url 2 255) (ok_response (ayah_url 2 255) (JObj unknown_verse_body)))
  = (Ret (JStr TRANSLATION_NOT_RETRIEVED), [EvGet (ayah_url 2 255) 10]).
Proof.
  apply (translation_not_retrieved
           (answering (ayah_url 2 255)
              (ok_response (ayah_url 2 255) (JObj unknown_verse_body)))
           2 255
           (Response 200 "OK" (ayah_url 2 255) (inr (JObj unknown_verse_body)))
           unknown_verse_body);
    [reflexivity | reflexivity | reflexivity | left; reflexivity].
Defined.

Lemma commentary_mapping_shape_witness :
  get_tafsir_data 2 255 healthy =
    (Ret healthy_commentary, source_requests 2 255 TAFSIR_SOURCES)
  /\ (forall key,
         is_Some (healthy_commentary !! key) <-> In key ["context"; "classical"; "modern"])
  /\ (forall key text,
         healthy_commentary !! key = Some text -> text <> "" /\ strip text = text)
  /\ outbound_calls (source_requests 2 255 TAFSIR_SOURCES) =
     source_requests 2 255 TAFSIR_SOURCES.
Proof.
  assert (Hrun : get_tafsir_data 2 255 healthy =
                 (Ret healthy_commentary, source_requests 2 255 TAFSIR_SOURCES))
    by (vm_compute; reflexivity).
  split; [exact Hrun|].
  exact (commentary_mapping_shape healthy 2 255 _ _ Hrun).
Defined.

Lemma commentary_returns_on_usable_answers_witness :
  exists m tr,
    get_tafsir_data 2 255 (answering ibn_kathir_url (GetRaises Timeout "Read timed out."))
    = (Ret m, tr)
    /\ outbound_calls tr = source_requests 2 255 TAFSIR_SOURCES.
Proof.
  apply (commentary_returns_on_usable_answers
           (answering ibn_kathir_url (GetRaises Timeout "Read timed out.")) 2 255).
  intros source [<- | [<- | [<- | []]]].
  - right. split; [reflexivity|exact I].
  - left. reflexivity.
  - right. split; [reflexivity|exact I].
Defined.

Lemma commentary_text_is_stripped_witness :
  all_space " A commentary. " = false
  /\ (forall d,
         fetch_source 2 255 "classical" "en-tafisr-ibn-kathir" d healthy =
         (Ret (<["classical" := "A commentary."]> d),
          [EvGet (tafsir_url "en-tafisr-ibn-kathir" 2 255) 10]))
  /\ (forall m tr,
         get_tafsir_data 2 255 healthy = (Ret m, tr) ->
         m !! "classical" = Some "A commentary.").
Proof.
  split; [reflexivity|].
  apply (commentary_text_is_stripped healthy 2 255
           [("context", "en-kashf-al-asrar-tafsir")] "classical" "en-tafisr-ibn-kathir"
           [("modern", "en-tafsir-maarif-ul-quran")]
           (Response 200 "OK" ibn_kathir_url (inr (JObj commentary_body)))
           commentary_body " A commentary. ");
    reflexivity.
Defined.

Lemma missing_text_is_unavailable_witness :
  lookup "text" textless_body = None
  /\ (forall d,
         fetch_source 2 255 "context" "en-kashf-al-asrar-tafsir" d
           (answering kashf_url (ok_response kashf_url (JObj textless_body)))
         = (Ret (<["context" := DATA_UNAVAILABLE_MESSAGE]> d),
            [EvGet (tafsir_url "en-kashf-al-asrar-tafsir" 2 255) 10]))
  /\ (forall m tr,
         get_tafsir_data 2 255
           (answering kashf_url (ok_response kashf_url (JObj textless_body)))
         = (Ret m, tr) ->
         m !! "context" = Some DATA_UNAVAILABLE_MESSAGE).
Proof.
  split; [reflexivity|].
  apply (missing_text_is_unavailable
           (answering kashf_url (ok_response kashf_url (JObj textless_body))) 2 255
           [] "context" "en-kashf-al-asrar-tafsir"
           [("classical", "en-tafisr-ibn-kathir"); ("modern", "en-tafsir-maarif-ul-quran")]
           (Response 200 "OK" kashf_url (inr (JObj textless_body)))
           textless_body);
    reflexivity.
Defined.

Lemma prompt_prints_None_for_missing_key_witness :
  exists a b,
    generate_explanation_prompt 2 255 "T" (delete "classical" three_texts) =
    a +:+ ("**[Tafsir Ibn Kathir]:**" +:+ newline +:+ "None" +:+ newline) +:+ b.
Proof.
  apply (prompt_prints_None_for_missing_key 2 255 "T" (delete "classical" three_texts)
           "classical" "**[Tafsir Ibn Kathir]:**").
  - right. left. reflexivity.
  - vm_compute. reflexivity.
Defined.

Lemma unavailable_data_still_generates_witness :
  exists tr,
    explain_ayah (Some Groq) verse_2_255 offline =
    (Ret (Reply
            (jsonify
               [("error",
                 JStr "Failed to get explanation from the language model: Connection error.")])
            500),
     tr)
    /\ outbound_calls tr =
       full_call_sequence 2 255
         (generate_explanation_prompt 2 255 TRANSLATION_NETWORK_ERROR all_unavailable).
Proof.
  apply (unavailable_data_still_generates offline Groq
           [("surah", JInt 2); ("ayah", JInt 255)] (JInt 2) (JInt 255) 2 255);
    reflexivity.
Defined.

Lemma malformed_translation_faults_the_view_witness :
  explain_ayah (Some Groq) verse_2_255 list_answer =
  (Raise (Exn AttributeError "'list' object has no attribute 'get'"),
   [EvGet (ayah_url 2 255) 10]).
Proof.
  apply (malformed_translation_faults_the_view list_answer Groq
           [("surah", JInt 2); ("ayah", JInt 255)] (JInt 2) (JInt 255) 2 255
           (Response 200 "OK" (ayah_url 2 255) (inr (JList []))) (JList []));
    first [reflexivity | exact I].
Defined.

Lemma empty_choices_is_500_witness :
  fst (explain_ayah (Some Groq) verse_2_255 (model_returning (ChatCompletion [])))
  = Ret (Reply
           (jsonify
              [("error",
                JStr "Failed to get explanation from the language model: list index out of range")])
           500).
Proof.
  eapply (empty_choices_is_500 (model_returning (ChatCompletion []))
            (Some Groq) verse_2_255 _ _ _ (ChatCompletion [])).
  - apply surjective_pairing.
  - vm_compute. do 4 right. left. reflexivity.
  - reflexivity.
  - reflexivity.
Defined.

Lemma null_content_is_200_null_witness :
  fst (explain_ayah (Some Groq) verse_2_255 (model_returning (ChatCompletion [None])))
  = Ret (Reply (jsonify [("explanation", JNull)]) 200).
Proof.
  eapply (null_content_is_200_null (model_returning (ChatCompletion [None]))
            (Some Groq) verse_2_255 _ _ _ (ChatCompletion [None]) []).
  - apply surjective_pairing.
  - vm_compute. do 4 right. left. reflexivity.
  - reflexivity.
  - reflexivity.
Defined.

Lemma unfit_bodies_get_400_witness :
  exists msg,
    explain_ayah (Some Groq) (JList [JStr "surah"; JStr "ayah"]) healthy =
    (Ret (Reply (jsonify [("error", JStr msg)]) 400), [])
    /\ (msg = MISSING_NUMBER \/ msg = MUST_BE_NUMBERS)
    /\ (truthy (JList [JStr "surah"; JStr "ayah"]) = false -> msg = MISSING_NUMBER).
Proof.
  apply (unfit_bodies_get_400 healthy Groq (JList [JStr "surah"; JStr "ayah"])).
  right. left. eexists. reflexivity.
Defined.

Lemma bare_number_body_faults_witness :
  explain_ayah (Some Groq) (JInt 5) healthy =
  (Raise (Exn TypeError "argument of type 'int' is not iterable"), []).
Proof. exact (bare_number_body_faults healthy Groq (JInt 5) eq_refl). Defined.

Lemma infinite_float_faults_witness :
  explain_ayah (Some Groq)
    (JObj [("surah", JInt 2); ("ayah", JFloat (S754_infinity false))]) healthy =
  (Raise (Exn OverflowError "cannot convert float infinity to integer"), []).
Proof.
  apply (infinite_float_faults healthy Groq
           [("surah", JInt 2); ("ayah", JFloat (S754_infinity false))]
           (JInt 2) (JFloat (S754_infinity false)) false);
    first [reflexivity | right; split; [exists 2; reflexivity|reflexivity]].
Defined.

Lemma view_exceptions_classified_witness :
  ([EvGet (ayah_url 2 255) 10] = []
   /\ ((Json verse_2_255 = NotJson
        /\ Exn AttributeError "'list' object has no attribute 'get'" =
           Exn (OtherException "UnsupportedMediaType") UNSUPPORTED_MEDIA_TYPE)
       \/ (exists text,
              Json verse_2_255 = Undecodable text
              /\ Exn AttributeError "'list' object has no attribute 'get'" =
                 Exn (OtherException "BadRequest") text)))
  \/ ([EvGet (ayah_url 2 255) 10] = []
      /\ (exists data, Json verse_2_255 = Json data)
      /\ (AttributeError = TypeError \/ AttributeError = OverflowError))
  \/ ((exists data, Json verse_2_255 = Json data)
      /\ AttributeError = AttributeError
      /\ exists surah ayah n,
           (0 < n <= 4)%nat
           /\ outbound_calls [EvGet (ayah_url 2 255) 10] =
              take n (EvGet (ayah_url surah ayah) 10
                      :: source_requests surah ayah TAFSIR_SOURCES)).
Proof.
  apply (view_exceptions_classified list_answer (Some Groq) (Json verse_2_255)
           (Exn AttributeError "'list' object has no attribute 'get'")
           [EvGet (ayah_url 2 255) 10]).
  vm_compute. reflexivity.
Defined.

Lemma view_replies_classified_witness :
  (Some Groq = None
   /\ snd (explain_ayah (Some Groq) verse_2_255 healthy) = []
   /\ Reply (jsonify [("explanation", JStr "### The Verse")]) 200 =
      Reply (jsonify [("error", JStr NOT_INITIALIZED)]) 500)
  \/ (Some Groq <> None
      /\ snd (explain_ayah (Some Groq) verse_2_255 healthy) = []
      /\ status (Reply (jsonify [("explanation", JStr "### The Verse")]) 200) = 400)
  \/ (Some Groq <> None
      /\ (status (Reply (jsonify [("explanation", JStr "### The Verse")]) 200) = 200
          \/ status (Reply (jsonify [("explanation", JStr "### The Verse")]) 200) = 500)
      /\ exists surah ayah prompt,
           Reply (jsonify [("explanation", JStr "### The Verse")]) 200 =
           reply_of_completion
             (chat_completions_create healthy (completion_request_for prompt))
           /\ outbound_calls (snd (explain_ayah (Some Groq) verse_2_255 healthy)) =
              full_call_sequence surah ayah prompt).
Proof.
  apply (view_replies_classified healthy (Some Groq) verse_2_255
           (Reply (jsonify [("explanation", JStr "### The Verse")]) 200)
           (snd (explain_ayah (Some Groq) verse_2_255 healthy))).
  vm_compute. reflexivity.
Defined.
